(** * Authentication core of the patient service

    A shallow embedding of [app/utils/security.py], [app/core/config.py],
    [app/core/auth_backend.py] and the lookup of [app/crud_user.py],
    together with the properties stated about them.

    The two third-party libraries the code calls are not part of the
    repository.  They appear here as interfaces, following their
    documented behaviour:
    - passlib's [CryptContext] is a record of the three operations the
      code calls; the part of its contract that a theorem relies on is a
      named law and stands among the hypotheses of that theorem;
    - python-jose's [jwt.encode] and [jwt.decode] are written out down to
      the validation of the registered claims, which decides the expiry,
      audience and issuer behaviour; the signature layer [jws] below them
      is a record of two operations with one law.
    The clock and the salt generator are arguments: [now] is the instant
    a function reads, a salt the randomness [hash] draws.  Reference
    instances of the interfaces follow the embedding; they make every
    definition executable and show that the laws are consistent. *)

From Stdlib Require Import ZArith Lia List String Ascii.
From stdpp Require Import gmap strings list fin_maps pretty.
From stdpp Require Import sorting.

Set Warnings "-register-all".

(** ** Python values, exceptions and the object store *)

Module Py.

(** The values a claim may hold.  A [datetime] is an aware UTC instant and
    a [timedelta] a duration, both counted in microseconds (the resolution
    of Python's [datetime] module).  Values are immutable: the code under
    study replaces items of a dict and never changes a value in place. *)
Inductive pyval : Type :=
| PNone
| PBool (b : bool)
| PInt (n : Z)
| PStr (s : string)
| PDatetime (us : Z)
| PList (l : list pyval).

(** A [Dict[str, Any]]. *)
Abbreviation dict := (gmap string pyval).

(** Errors of python-jose ([jose.exceptions]): [ExpiredSignatureError] and
    [JWTClaimsError] are subclasses of [JWTError]. *)
Inductive jose_error : Type :=
| JWTError (msg : string)
| JWTClaimsError (msg : string)
| ExpiredSignatureError (msg : string).

(** Exceptions (subclasses of [Exception]).  [TokenDecodeError] is the
    class declared in [security.py]; it carries its message and the jose
    error it was raised [from].  [Exception cls msg] stands for an error
    of any other class, by the name of the class. *)
Inductive exn : Type :=
| Exception (cls msg : string)
| JoseError (e : jose_error)
| TokenDecodeError (msg : string) (cause : jose_error)
| NotImplementedError (msg : string).

Inductive result (A : Type) : Type :=
| Ok (a : A)
| Raise (e : exn).
Arguments Ok {A} a.
Arguments Raise {A} e.

Definition is_Ok {A} (r : result A) : Prop := exists a, r = Ok a.

#[export] Instance result_ret : MRet result := fun _ a => Ok a.
#[export] Instance result_bind : MBind result := fun _ _ f r =>
  match r with
  | Ok a => f a
  | Raise e => Raise e
  end.

(** [try: body] / [except Exception: handler]. *)
Definition try_except {A} (body : result A) (handler : exn -> result A) : result A :=
  match body with
  | Ok a => Ok a
  | Raise e => handler e
  end.

(** Objects live in a store; a variable that holds a dict holds its
    address. *)
Definition loc := positive.
Abbreviation heap := (gmap loc dict).

(** Computations that read and write the store and may raise.  An
    exception leaves the store as it was when it was raised. *)
Definition M (A : Type) : Type := heap -> result A * heap.

#[export] Instance M_ret : MRet M := fun _ a h => (Ok a, h).
#[export] Instance M_bind : MBind M := fun _ _ f m h =>
  match m h with
  | (Ok a, h') => f a h'
  | (Raise e, h') => (Raise e, h')
  end.

Definition raise {A} (e : exn) : M A := fun h => (Raise e, h).

(** A computation that does not touch the store. *)
Definition lift {A} (r : result A) : M A := fun h => (r, h).

Definition run {A} (m : M A) (h : heap) : result A * heap := m h.

(** [m] writes to no object other than the one at [l]. *)
Definition writes_only {A} (l : loc) (m : M A) : Prop :=
  forall (h : heap) (l' : loc), l' ≠ l -> (run m h).2 !! l' = h !! l'.

(** Reading through an address.  Every address a Python program holds is
    live; the error branch only makes the function total. *)
Definition deref (l : loc) : M dict := fun h =>
  match h !! l with
  | Some d => (Ok d, h)
  | None => (Raise (Exception "ReferenceError" "dangling reference"), h)
  end.

Definition alloc (d : dict) : M loc := fun h =>
  let l := fresh (dom h) in (Ok l, <[l := d]> h).

Definition store (l : loc) (d : dict) : M unit := fun h => (Ok tt, <[l := d]> h).

(** [d.copy()]: a new dict object with the same items. *)
Definition dict_copy (l : loc) : M loc :=
  d ← deref l; alloc d.

(** [k in d] *)
Definition dict_contains (l : loc) (k : string) : M bool :=
  d ← deref l; mret (bool_decide (is_Some (d !! k))).

(** [d.get(k)] *)
Definition dict_get (l : loc) (k : string) : M (option pyval) :=
  d ← deref l; mret (d !! k).

(** [d[k]] *)
Definition dict_getitem (l : loc) (k : string) : M pyval :=
  d ← deref l;
  match d !! k with
  | Some v => mret v
  | None => raise (Exception "KeyError" k)
  end.

(** [d[k] = v] *)
Definition dict_setitem (l : loc) (k : string) (v : pyval) : M unit :=
  d ← deref l; store l (<[k := v]> d).

(** [d.update({k1: v1, ...})], the items taken in order. *)
Fixpoint dict_update (l : loc) (items : list (string * pyval)) : M unit :=
  match items with
  | [] => mret tt
  | (k, v) :: rest => dict_setitem l k v;; dict_update l rest
  end.

(** The interpreter's conversions [str(x)] and [int(x)]; [py_int] gives
    [None] where [int] raises. *)
Record Builtins : Type := {
  py_str : pyval -> string;
  py_int : pyval -> option Z;
}.

(** [int(n)] of an [int] is that [int]. *)
Definition int_of_int (py : Builtins) : Prop :=
  forall n, py_int py (PInt n) = Some n.

(** The range of [timedelta]: from -999999999 days to 999999999 days,
    23:59:59.999999. *)
Definition timedelta_min : Z := (-86399999913600000000)%Z.
Definition timedelta_max : Z := 86399999999999999999%Z.

(** The range of [datetime]: from 0001-01-01 to the last microsecond of
    9999-12-31, counted from the epoch. *)
Definition datetime_min : Z := (-62135596800000000)%Z.
Definition datetime_max : Z := 253402300799999999%Z.

Definition overflow {A} (msg : string) : result A :=
  Raise (Exception "OverflowError" msg).

(** [datetime.timedelta(minutes=m)] *)
Definition timedelta_minutes (m : Z) : result Z :=
  let us := (m * 60 * 1000000)%Z in
  if bool_decide (timedelta_min <= us <= timedelta_max)%Z then Ok us
  else overflow "days out of range for timedelta".

(** [dt + delta] *)
Definition datetime_add (dt delta : Z) : result Z :=
  let us := (dt + delta)%Z in
  if bool_decide (datetime_min <= us <= datetime_max)%Z then Ok us
  else overflow "date value out of range".

(** A duration of [s] whole seconds. *)
Definition seconds (s : Z) : Z := (s * 1000000)%Z.

(** [calendar.timegm(dt.utctimetuple())]: whole seconds since the epoch,
    the microseconds dropped. *)
Definition timegm (us : Z) : Z := (us / 1000000)%Z.

(** What [json.dumps] accepts: no [datetime], at any depth. *)
Fixpoint json_serialisable (v : pyval) : bool :=
  match v with
  | PDatetime _ => false
  | PList l => forallb json_serialisable l
  | _ => true
  end.

End Py.
Export Py.

(** ** [app/core/config.py] *)

Module config.

Record Settings : Type := {
  SECRET_KEY : string;
  ALGORITHM : string;
  ACCESS_TOKEN_EXPIRE_MINUTES : Z;
  JWT_ISSUER : option string;
  JWT_AUDIENCE : option string;
}.

(** The field defaults of [Settings]. *)
Definition defaults : Settings := {|
  SECRET_KEY := "change-me-in-prod-very-secret-and-long-string";
  ALGORITHM := "HS256";
  ACCESS_TOKEN_EXPIRE_MINUTES := 30;
  JWT_ISSUER := None;
  JWT_AUDIENCE := None;
|}.

(** Truth value of an [Optional[str]]: [None] and the empty string are
    false.  [if settings.JWT_ISSUER:] and [x if x else None] both go
    through it, so [configured o] is the value the code works with. *)
Definition configured (o : option string) : option string :=
  match o with
  | Some EmptyString => None
  | Some s => Some s
  | None => None
  end.

Definition truthy (o : option string) : bool :=
  match configured o with
  | Some _ => true
  | None => false
  end.

(** The same settings with no audience. *)
Definition without_audience (settings : Settings) : Settings := {|
  SECRET_KEY := SECRET_KEY settings;
  ALGORITHM := ALGORITHM settings;
  ACCESS_TOKEN_EXPIRE_MINUTES := ACCESS_TOKEN_EXPIRE_MINUTES settings;
  JWT_ISSUER := JWT_ISSUER settings;
  JWT_AUDIENCE := None;
|}.

(** The same settings with the issuer [iss]. *)
Definition with_issuer (iss : string) (settings : Settings) : Settings := {|
  SECRET_KEY := SECRET_KEY settings;
  ALGORITHM := ALGORITHM settings;
  ACCESS_TOKEN_EXPIRE_MINUTES := ACCESS_TOKEN_EXPIRE_MINUTES settings;
  JWT_ISSUER := Some iss;
  JWT_AUDIENCE := JWT_AUDIENCE settings;
|}.

(** The same settings with the audience [aud]. *)
Definition with_audience (aud : string) (settings : Settings) : Settings := {|
  SECRET_KEY := SECRET_KEY settings;
  ALGORITHM := ALGORITHM settings;
  ACCESS_TOKEN_EXPIRE_MINUTES := ACCESS_TOKEN_EXPIRE_MINUTES settings;
  JWT_ISSUER := JWT_ISSUER settings;
  JWT_AUDIENCE := Some aud;
|}.

End config.

(** ** passlib: the [CryptContext] interface *)

Module passlib.

(** [pwd_context = CryptContext(schemes=["bcrypt"], deprecated="auto")].
    [hash] draws a random salt, which is an argument here.  [verify] and
    [needs_update] raise on a stored value the context cannot identify or
    parse, [hash] and [verify] on a secret the scheme refuses. *)
Record CryptContext : Type := {
  salt : Type;
  hash : salt -> string -> result string;
  verify : string -> string -> result bool;
  needs_update : string -> result bool;
}.

(** A hash the context has just produced verifies against its secret. *)
Definition fresh_hash_verifies (c : CryptContext) : Prop :=
  forall (r : salt c) (s h : string), hash c r s = Ok h -> verify c s h = Ok true.

(** A hash the context has just produced carries the current parameters. *)
Definition fresh_hash_current (c : CryptContext) : Prop :=
  forall (r : salt c) (s h : string), hash c r s = Ok h -> needs_update c h = Ok false.

(** [needs_update] identifies and parses the hash as [verify] does, so it
    succeeds on every hash [verify] accepted. *)
Definition verified_hash_known (c : CryptContext) : Prop :=
  forall (s h : string), verify c s h = Ok true -> is_Ok (needs_update c h).

(** [digested] is the part of a secret the scheme reads (bcrypt reads the
    first 72 bytes of a password).  A hash is accepted only for a secret
    with the digested part of the secret it was made from: the scheme has
    no collisions on what it reads. *)
Definition verify_sound (c : CryptContext) (digested : string -> string) : Prop :=
  forall (r : salt c) (s1 s2 h : string),
    hash c r s2 = Ok h -> verify c s1 h = Ok true -> digested s1 = digested s2.

End passlib.

(** ** python-jose: [jose.jwt] *)

Module jose.

(** The signature layer [jose.jws] with the JSON coding of the payload.
    [sign] is [jws.sign] on a serialisable claim set; the configured key
    and algorithm are taken to be ones the library signs with.  [verify]
    is [jws.verify] followed by [json.loads] and the check that the
    payload is a JSON object; [None] stands for the [JWTError] that
    [jwt.decode] raises when any of these fails. *)
Record JWS : Type := {
  token : Type;
  sign : dict -> string -> string -> token;
  verify : token -> string -> list string -> option dict;
}.

(** A token verifies under the key and algorithm it was signed with, and
    yields the claim set that was signed. *)
Definition sign_verify (jws : JWS) : Prop :=
  forall (claims : dict) (key alg : string),
    verify jws (sign jws claims key alg) key [alg] = Some claims.

(** The [options] argument of [jwt.decode]; the options other than
    [verify_aud] keep their defaults: every check on, no claim required,
    no leeway. *)
Record options : Type := { verify_aud : bool }.

Definition dict_serialisable (d : dict) : bool :=
  bool_decide (map_Forall (fun _ v => json_serialisable v = true) d).

Definition claims_error {A} (msg : string) : result A :=
  Raise (JoseError (JWTClaimsError msg)).

(** A result that is a value or one of jose's own errors. *)
Definition jose_only {A} (r : result A) : Prop :=
  match r with
  | Ok _ => True
  | Raise e => exists j, e = JoseError j
  end.

(** The [TypeError] of [int(v)] for a value of a type [int] does not
    convert: of the values a JSON payload holds, [None] and a list. *)
Definition int_type_error (v : pyval) : exn :=
  Exception "TypeError"
    match v with
    | PList _ =>
        "int() argument must be a string, a bytes-like object or a real number, not 'list'"
    | _ =>
        "int() argument must be a string, a bytes-like object or a real number, not 'NoneType'"
    end.

(** A result that is a value, one of jose's own errors, or the
    [TypeError] of [int]. *)
Definition jose_or_type_error {A} (r : result A) : Prop :=
  match r with
  | Ok _ => True
  | Raise e => (exists j, e = JoseError j) \/ (exists v, e = int_type_error v)
  end.

Section jwt.
Context (jws : JWS) (py : Builtins).

(** The loop of [jwt.encode] over the time claims: a [datetime] becomes
    its integer timestamp, in place. *)
Definition to_intdate (claims : loc) (time_claim : string) : M unit :=
  v ← dict_get claims time_claim;
  match v with
  | Some (PDatetime us) => dict_setitem claims time_claim (PInt (timegm us))
  | _ => mret tt
  end.

(** [jwt.encode(claims, key, algorithm=...)] *)
Definition encode (claims : loc) (key algorithm : string) : M (token jws) :=
  to_intdate claims "exp";;
  to_intdate claims "iat";;
  to_intdate claims "nbf";;
  payload ← deref claims;
  if dict_serialisable payload
  then mret (sign jws payload key algorithm)
  else raise (Exception "TypeError" "Object is not JSON serializable").

Definition is_str (v : pyval) : bool :=
  match v with PStr _ => true | _ => false end.

(** [int(claims[k])] raised, inside [try: ... except ValueError: raise
    JWTClaimsError(msg)].  [int] raises [ValueError] for a string that is
    no numeral, which jose reports as the claims error, and [TypeError]
    for a value that is no string and no number, which jose does not catch:
    it leaves [jwt.decode] as it is. *)
Definition not_an_integer {A} (v : pyval) (msg : string) : result A :=
  if is_str v then claims_error msg else Raise (int_type_error v).

Definition _validate_iat (claims : dict) : result unit :=
  match claims !! "iat" with
  | None => Ok tt
  | Some v =>
      match py_int py v with
      | Some _ => Ok tt
      | None => not_an_integer v "Issued At claim (iat) must be an integer."
      end
  end.

Definition _validate_nbf (claims : dict) (now : Z) : result unit :=
  match claims !! "nbf" with
  | None => Ok tt
  | Some v =>
      match py_int py v with
      | Some nbf =>
          if (timegm now <? nbf)%Z
          then claims_error "The token is not yet valid (nbf)"
          else Ok tt
      | None => not_an_integer v "Not Before claim (nbf) must be an integer."
      end
  end.

(** [if exp < now: raise ExpiredSignatureError], both in whole seconds. *)
Definition _validate_exp (claims : dict) (now : Z) : result unit :=
  match claims !! "exp" with
  | None => Ok tt
  | Some v =>
      match py_int py v with
      | Some exp =>
          if (exp <? timegm now)%Z
          then Raise (JoseError (ExpiredSignatureError "Signature has expired."))
          else Ok tt
      | None => not_an_integer v "Expiration Time claim (exp) must be an integer."
      end
  end.

Definition str_eqb (s : string) (v : pyval) : bool :=
  match v with PStr s' => String.eqb s s' | _ => false end.

(** [audience in audience_claim] *)
Definition audience_in (audience : option string) (audience_claim : list pyval) : bool :=
  match audience with
  | Some a => existsb (str_eqb a) audience_claim
  | None => false
  end.

(** [_validate_aud] returns at once when the claim set has no ["aud"]:
    "if the aud claim is included in the claim set, then the audience must
    be included and must equal the provided claim" (the documentation of
    [jwt.decode]).  A string claim is read as a list of one. *)
Definition _validate_aud (claims : dict) (audience : option string) : result unit :=
  match claims !! "aud" with
  | None => Ok tt
  | Some v =>
      let audience_claim :=
        match v with
        | PStr s => Some [PStr s]
        | PList l => Some l
        | _ => None
        end in
      match audience_claim with
      | None => claims_error "Invalid claim format in token"
      | Some l =>
          if negb (forallb is_str l) then claims_error "Invalid claim format in token"
          else if negb (audience_in audience l) then claims_error "Invalid audience"
          else Ok tt
      end
  end.

(** [claims.get("iss") not in (issuer,)] when an issuer is given. *)
Definition _validate_iss (claims : dict) (issuer : option string) : result unit :=
  match issuer with
  | None => Ok tt
  | Some i =>
      match claims !! "iss" with
      | Some v => if str_eqb i v then Ok tt else claims_error "Invalid issuer"
      | None => claims_error "Invalid issuer"
      end
  end.

Definition _validate_sub (claims : dict) : result unit :=
  match claims !! "sub" with
  | None => Ok tt
  | Some v => if is_str v then Ok tt else claims_error "Subject must be a string."
  end.

Definition _validate_jti (claims : dict) : result unit :=
  match claims !! "jti" with
  | None => Ok tt
  | Some v => if is_str v then Ok tt else claims_error "JWT ID must be a string."
  end.

(** [jwt.decode] is called without an [access_token]. *)
Definition _validate_at_hash (claims : dict) : result unit :=
  match claims !! "at_hash" with
  | None => Ok tt
  | Some _ => claims_error "No access_token provided to compare against at_hash claim."
  end.

Definition _validate_claims (claims : dict) (audience issuer : option string)
    (opts : options) (now : Z) : result unit :=
  _validate_iat claims;;
  _validate_nbf claims now;;
  _validate_exp claims now;;
  (if verify_aud opts then _validate_aud claims audience else Ok tt);;
  _validate_iss claims issuer;;
  _validate_sub claims;;
  _validate_jti claims;;
  _validate_at_hash claims.

(** [jwt.decode(token, key, algorithms=..., audience=..., issuer=...,
    options=...)], the clock read at [now]. *)
Definition decode (tok : token jws) (key : string) (algorithms : list string)
    (audience issuer : option string) (opts : options) (now : Z) : result dict :=
  match verify jws tok key algorithms with
  | None => Raise (JoseError (JWTError "Signature verification failed."))
  | Some claims =>
      _validate_claims claims audience issuer opts now;;
      Ok claims
  end.

End jwt.
End jose.

(** ** [app/models.py], [app/schemas.py] and [app/crud_user.py] *)

Module models.

(** A row of the [users] table (the timestamps are left out). *)
Record User : Type := {
  id : Z;
  email : string;
  hashed_password : string;
  is_active : bool;
}.

End models.

Module schemas.

Record LoginSchema : Type := {
  email : string;
  password : string;
}.

End schemas.

Module crud_user.

(** What a [Session] shows of the database: the rows of [users], in the
    order a query returns them. *)
Abbreviation Session := (list models.User).

(** [db.query(models.User).filter(models.User.email == email).first()] *)
Definition get_user_by_email (db : Session) (email : string) : option models.User :=
  find (fun u => String.eqb (models.email u) email) db.

End crud_user.

(** ** [app/utils/security.py] *)

Module security.

Import config.

Section security.
Context (pwd_context : passlib.CryptContext) (jws : jose.JWS) (py : Builtins).
Context (settings : Settings).

(** *** Password helpers *)

Definition hash_password (r : passlib.salt pwd_context) (plain_password : string)
    : result string :=
  passlib.hash pwd_context r plain_password.

Definition verify_password (plain_password stored_hash : string)
    (legacy_verify : option (string -> string -> result bool)) : result (bool * bool) :=
  (* 1) Try current (bcrypt via passlib) *)
  valid ← try_except (passlib.verify pwd_context plain_password stored_hash)
            (fun _ => Ok false);
  if valid : bool then
    should_rehash ← passlib.needs_update pwd_context stored_hash;
    Ok (true, should_rehash)
  else
    (* 2) Try legacy verification if supplied *)
    match legacy_verify with
    | Some legacy =>
        legacy_ok ← try_except (legacy plain_password stored_hash) (fun _ => Ok false);
        if legacy_ok : bool then Ok (true, true)
        else Ok (false, false)
    | None =>
        (* 3) No match *)
        Ok (false, false)
    end.

(** *** JWT helpers *)

(** [now] is the value of [datetime.datetime.now(datetime.timezone.utc)];
    [data] is the caller's dict, [expires_delta] a [timedelta] or [None]. *)
Definition create_access_token (now : Z) (data : loc) (expires_delta : option Z)
    : M (jose.token jws) :=
  to_encode ← dict_copy data;
  (* Make sure sub is string *)
  has_sub ← dict_contains to_encode "sub";
  (if has_sub : bool then
     sub ← dict_getitem to_encode "sub";
     dict_setitem to_encode "sub" (PStr (py_str py sub))
   else mret tt);;
  expires_delta ← lift
    match expires_delta with
    | None => timedelta_minutes (ACCESS_TOKEN_EXPIRE_MINUTES settings)
    | Some d => Ok d
    end;
  expire ← lift (datetime_add now expires_delta);
  (* Standard claims *)
  dict_update to_encode [("exp", PDatetime expire); ("iat", PDatetime now)];;
  (* Optional issuer/audience if provided in settings *)
  match configured (JWT_ISSUER settings) with
  | Some iss => dict_setitem to_encode "iss" (PStr iss)
  | None => mret tt
  end;;
  match configured (JWT_AUDIENCE settings) with
  | Some aud => dict_setitem to_encode "aud" (PStr aud)
  | None => mret tt
  end;;
  jose.encode jws to_encode (SECRET_KEY settings) (ALGORITHM settings).

(** [now] is the instant at which [jwt.decode] reads the clock. *)
Definition decode_access_token (now : Z) (tok : jose.token jws) : result dict :=
  let options := {| jose.verify_aud := truthy (JWT_AUDIENCE settings) |} in
  match
    jose.decode jws py tok (SECRET_KEY settings) [ALGORITHM settings]
      (configured (JWT_AUDIENCE settings)) (configured (JWT_ISSUER settings))
      options now
  with
  | Ok payload => Ok payload
  | Raise (JoseError (ExpiredSignatureError m)) =>
      Raise (TokenDecodeError "token expired" (ExpiredSignatureError m))
  | Raise (JoseError exc) =>
      Raise (TokenDecodeError "invalid token or claims" exc)
  | Raise e => Raise e
  end.

End security.
End security.

(** ** [app/core/auth_backend.py] *)

Module auth_backend.

Import crud_user.

(** The [AuthBackend] protocol: an object with an [authenticate] method. *)
Record AuthBackend : Type := {
  backend_authenticate : Session -> schemas.LoginSchema -> result (option models.User);
}.

Section auth_backend.
Context (pwd_context : passlib.CryptContext).

(** A [models.User] object is always true, so [if not user] tests for
    [None]. *)
Definition DatabaseAuthBackend : AuthBackend := {|
  backend_authenticate db credentials :=
    (* Fetch user by email *)
    match get_user_by_email db (schemas.email credentials) with
    | None => Ok None
    | Some user =>
        (* Verify hashed password using security helpers *)
        r ← security.verify_password pwd_context (schemas.password credentials)
              (models.hashed_password user) None;
        if negb (fst r) then Ok None
        else
          (* Return the user if login is valid *)
          Ok (Some user)
    end
|}.

Definition AzureB2CAuthBackend : AuthBackend := {|
  backend_authenticate _ _ :=
    Raise (NotImplementedError "Azure B2C authentication not yet implemented.")
|}.

(** Dispatcher function (used by [routers/auth.py]). *)
Definition authenticate (db : Session) (credentials : schemas.LoginSchema)
    (backend : option AuthBackend) : result (option models.User) :=
  let backend :=
    match backend with
    | None => DatabaseAuthBackend
    | Some b => b
    end in
  backend_authenticate backend db credentials.

End auth_backend.
End auth_backend.

(** ** The claim set that reaches the signer

    [issued_claims] follows the life of [to_encode] in
    [create_access_token] as a function on the items of the caller's dict;
    [create_access_token_run] below proves that it is the object
    [jwt.encode] signs. *)

Module claimset.

Import config.

Definition coerce_sub (py : Builtins) (d : dict) : dict :=
  match d !! "sub" with
  | Some v => <["sub" := PStr (py_str py v)]> d
  | None => d
  end.

Definition set_configured (k : string) (o : option string) (d : dict) : dict :=
  match configured o with
  | Some s => <[k := PStr s]> d
  | None => d
  end.

Definition intdate (k : string) (d : dict) : dict :=
  match d !! k with
  | Some (PDatetime us) => <[k := PInt (timegm us)]> d
  | _ => d
  end.

(** The lifetime in force: the requested one, else the configured one. *)
Definition lifetime (settings : Settings) (expires_delta : option Z) : result Z :=
  match expires_delta with
  | None => timedelta_minutes (ACCESS_TOKEN_EXPIRE_MINUTES settings)
  | Some d => Ok d
  end.

(** The expiry instant, when it is a [datetime]. *)
Definition expiry (settings : Settings) (now : Z) (expires_delta : option Z) : result Z :=
  delta ← lifetime settings expires_delta; datetime_add now delta.

Definition issued_claims (py : Builtins) (settings : Settings) (now expire : Z)
    (d : dict) : dict :=
  intdate "nbf" (intdate "iat" (intdate "exp"
    (set_configured "aud" (JWT_AUDIENCE settings)
      (set_configured "iss" (JWT_ISSUER settings)
        (<["iat" := PDatetime now]>
          (<["exp" := PDatetime expire]> (coerce_sub py d))))))).

(** An ["aud"] claim matches the audience when it is that string or a list
    of strings with it among them. *)
Definition audience_matches (audience : string) (v : pyval) : bool :=
  match v with
  | PStr s => String.eqb audience s
  | PList l => forallb jose.is_str l && existsb (jose.str_eqb audience) l
  | _ => false
  end.

End claimset.

(** ** Reference instances of the library interfaces *)

Module reference.

(** [str] and [int] on the scalar values.  The text of a [datetime] or of
    a list, and [int] of a numeric string, are not needed below: [str]
    gives a tag for the former and [int] refuses the latter. *)
Definition builtins : Builtins := {|
  py_str v :=
    match v with
    | PNone => "None"
    | PBool true => "True"
    | PBool false => "False"
    | PInt n => pretty n
    | PStr s => s
    | PDatetime _ => "<datetime>"
    | PList _ => "<list>"
    end;
  py_int v :=
    match v with
    | PInt n => Some n
    | PBool true => Some 1%Z
    | PBool false => Some 0%Z
    | _ => None
    end;
|}.

(** Symbolic tokens: a signed token records the claim set, the key and the
    algorithm it was signed with; every other string is [Unsigned]. *)
Inductive sym_token : Type :=
| Signed (claims : dict) (key alg : string)
| Unsigned (text : string).

Definition jws : jose.JWS := {|
  jose.token := sym_token;
  jose.sign claims key alg := Signed claims key alg;
  jose.verify tok key algorithms :=
    match tok with
    | Signed claims k a =>
        if String.eqb k key && existsb (String.eqb a) algorithms
        then Some claims else None
    | Unsigned _ => None
    end;
|}.

Fixpoint string_take (n : nat) (s : string) : string :=
  match n, s with
  | S n', String c s' => String c (string_take n' s')
  | _, _ => EmptyString
  end.

Fixpoint string_drop (n : nat) (s : string) : string :=
  match n, s with
  | S n', String _ s' => string_drop n' s'
  | _, _ => s
  end.

Fixpoint contains_nul (s : string) : bool :=
  match s with
  | EmptyString => false
  | String c s' => Ascii.eqb c Ascii.zero || contains_nul s'
  end.

Fixpoint string_repeat (n : nat) (c : ascii) : string :=
  match n with
  | O => EmptyString
  | S n' => String c (string_repeat n' c)
  end.

(** The 22 characters of a bcrypt salt, from a seed. *)
Definition bcrypt64 : string :=
  "./ABCDEFGHIJKLMNOPQRSTUVWXYZabcdefghijklmnopqrstuvwxyz0123456789".

Fixpoint salt_chars (n : nat) (seed : N) : string :=
  match n with
  | O => EmptyString
  | S n' =>
      String (default "."%char (String.get (N.to_nat (seed mod 64)) bcrypt64))
        (salt_chars n' (seed / 64))
  end.

(** bcrypt reads at most the first 72 bytes of a password; passlib's
    handler passes a longer one on as it is ([truncate_error] is off by
    default). *)
Definition bcrypt_digested (secret : string) : string := string_take 72 secret.

Definition bcrypt_ident : string := "$2b$12$".

(** passlib's bcrypt handler refuses a secret longer than 4096 characters
    and one with a NUL byte. *)
Definition bcrypt_secret_error (secret : string) : option exn :=
  if (4096 <? String.length secret)%nat
  then Some (Exception "PasswordSizeError" "password exceeds maximum allowed size")
  else if contains_nul secret
  then Some (Exception "PasswordValueError" "bcrypt does not allow NULL bytes in password")
  else None.

(** A bcrypt-like context.  A hash is [$2b$12$], the 22 salt characters
    and the checksum.  The checksum is symbolic: the digested bytes stand
    for their own digest, so that secrets with different digested parts
    never share a checksum. *)
Definition pwd_context : passlib.CryptContext := {|
  passlib.salt := N;
  passlib.hash seed secret :=
    match bcrypt_secret_error secret with
    | Some e => Raise e
    | None => Ok (bcrypt_ident +:+ salt_chars 22 seed +:+ bcrypt_digested secret)
    end;
  passlib.verify secret stored :=
    match bcrypt_secret_error secret with
    | Some e => Raise e
    | None =>
        if String.prefix bcrypt_ident stored && (29 <=? String.length stored)%nat
        then Ok (String.eqb (string_drop 29 stored) (bcrypt_digested secret))
        else Raise (Exception "UnknownHashError" "hash could not be identified")
    end;
  passlib.needs_update stored :=
    if String.prefix bcrypt_ident stored && (29 <=? String.length stored)%nat
    then Ok false
    else Raise (Exception "UnknownHashError" "hash could not be identified");
|}.

(** The legacy check of [tests/test_security.py]: a legacy hash is the
    plain text after the prefix [LEGACY:]. *)
Definition legacy_verify_example (plain stored_hash : string) : result bool :=
  if String.prefix "LEGACY:" stored_hash
  then Ok (String.eqb stored_hash ("LEGACY:" +:+ plain))
  else Ok false.

(** A legacy check that fails with an error. *)
Definition legacy_verify_broken (plain stored_hash : string) : result bool :=
  Raise (Exception "ValueError" "malformed legacy hash").

(** A store holding one dict, at address 1. *)
Definition store_of (d : dict) : heap := {[ 1%positive := d ]}.

(** 2026-01-01T00:00:00Z, in microseconds. *)
Definition t0 : Z := 1767225600000000%Z.

(** [decode_access_token(create_access_token(claims, expires_delta))]:
    the token is issued at [now] under the settings [issuing] and decoded
    at [now'] under the settings [checking]. *)
Definition issue_then_validate (issuing checking : config.Settings) (now now' : Z)
    (claims : dict) (expires_delta : option Z) : result dict :=
  match
    (run (security.create_access_token jws builtins issuing now 1%positive expires_delta)
       (store_of claims)).1
  with
  | Ok tok => security.decode_access_token jws builtins checking now' tok
  | Raise e => Raise e
  end.

(** A secret of 73 bytes: 72 times [a], then [last]. *)
Definition long_secret (last : ascii) : string :=
  string_repeat 72 "a" +:+ String last EmptyString.

(** A token signed with the default key that names another audience. *)
Definition other_audience_claims : dict :=
  {[ "sub" := PStr "1"; "aud" := PStr "billing" ]}.

Definition other_audience_token : sym_token :=
  Signed other_audience_claims
    (config.SECRET_KEY config.defaults) (config.ALGORITHM config.defaults).

(** Claims with a ["nbf"] that is [None], and a token signed with the
    default key whose ["exp"] is a list. *)
Definition null_nbf_claims : dict := {[ "sub" := PStr "1"; "nbf" := PNone ]}.

Definition list_exp_token : sym_token :=
  Signed {[ "sub" := PStr "1"; "exp" := PList [PInt 4102444800] ]}
    (config.SECRET_KEY config.defaults) (config.ALGORITHM config.defaults).

(** Claims of a caller who sets the standard claims: an expiry in the
    year 2100 and an issuance at the epoch. *)
Definition forged_claims : dict :=
  {[ "sub" := PInt 42; "exp" := PInt 4102444800; "iat" := PInt 0;
     "user_id" := PInt 123 ]}.

Definition login_claims : dict := {[ "sub" := PInt 42; "user_id" := PInt 123 ]}.

(** A [users] table with one row; the password is
    [very-secure-password-123!]. *)
Definition alice : models.User := {|
  models.id := 1;
  models.email := "alice@example.com";
  models.hashed_password := "$2b$12$D.....................very-secure-password-123!";
  models.is_active := true;
|}.

Definition alice_login (password : string) : schemas.LoginSchema := {|
  schemas.email := "alice@example.com";
  schemas.password := password;
|}.

End reference.

(** ** The rest of the application

    The request layer and the database layer, as far as the functions of
    [app/] go.  FastAPI's [HTTPException] is kept apart from the other
    exceptions: it is the one a handler turns into a response with its
    status code.  The database is the two tables of [app/models.py], each
    a list of rows in the order of their primary keys, which is the order
    a query without [ORDER BY] reads them in; the columns [created_at] and
    [updated_at] are left out.  pydantic's [EmailStr] is an argument. *)

Module fastapi.

Record HTTPException : Type := {
  status_code : Z;
  detail : string;
  headers : list (string * string);
}.

(** What a call in the request layer ends in: a value, an
    [HTTPException], or any other exception. *)
Inductive outcome (A : Type) : Type :=
| Return (a : A)
| RaiseHTTP (e : HTTPException)
| RaiseError (e : exn).
Arguments Return {A} a.
Arguments RaiseHTTP {A} e.
Arguments RaiseError {A} e.

#[export] Instance outcome_ret : MRet outcome := fun _ a => Return a.
#[export] Instance outcome_bind : MBind outcome := fun _ _ f o =>
  match o with
  | Return a => f a
  | RaiseHTTP e => RaiseHTTP e
  | RaiseError e => RaiseError e
  end.

(** A call that raises no [HTTPException] of its own. *)
Definition of_result {A} (r : result A) : outcome A :=
  match r with
  | Ok a => Return a
  | Raise e => RaiseError e
  end.

End fastapi.
Export fastapi.

Module pydantic.

(** Validation of an [EmailStr] field: [None] when the string is no email
    address, else the normalised address the model stores. *)
Record Validators : Type := {
  EmailStr : string -> option string;
}.

Definition ValidationError {A} (field : string) : result A :=
  Raise (Exception "ValidationError" field).

End pydantic.

Module schemas_rest.

(** [schemas.UserCreate] *)
Record UserCreate : Type := {
  email : string;
  password : string;
}.

(** [schemas.PatientCreate] ([PatientBase]); a [date] is a day number. *)
Record PatientCreate : Type := {
  pc_name : string;
  pc_age : Z;
  pc_dob : Z;
  pc_gender : string;
  pc_contact_number : string;
  pc_email : string;
  pc_address : option string;
}.

(** [schemas.PatientUpdate]: every field optional. *)
Record PatientUpdate : Type := {
  pu_name : option string;
  pu_age : option Z;
  pu_gender : option string;
  pu_contact_number : option string;
  pu_email : option string;
  pu_address : option string;
  pu_dob : option Z;
}.

(** [schemas.Token] as [login] returns it. *)
Record Token (token : Type) : Type := {
  access_token : token;
  token_type : string;
}.
Arguments access_token {token} _.
Arguments token_type {token} _.

Section constructors.
Context (validators : pydantic.Validators).

(** [schemas.UserCreate(email=..., password=...)] *)
Definition new_UserCreate (email password : string) : result UserCreate :=
  match pydantic.EmailStr validators email with
  | Some e => Ok {| email := e; password := password |}
  | None => pydantic.ValidationError "email"
  end.

(** [schemas.LoginSchema(email=..., password=...)] *)
Definition new_LoginSchema (email password : string) : result schemas.LoginSchema :=
  match pydantic.EmailStr validators email with
  | Some e => Ok {| schemas.email := e; schemas.password := password |}
  | None => pydantic.ValidationError "email"
  end.

End constructors.
End schemas_rest.

(** ** [app/models.py]: the [patients] table, and the database *)

Module models_rest.

(** A row of [patients]; every column but [id] and [user_id] is nullable.
    The integers of a row are ones SQLite stores; what [sqlite3] does
    with an [age] beyond 64 bits is not followed. *)
Record Patient : Type := {
  id : Z;
  user_id : Z;
  name : option string;
  age : option Z;
  dob : option Z;
  gender : option string;
  contact_number : option string;
  email : option string;
  address : option string;
}.

Record Database : Type := {
  users : list models.User;
  patients : list Patient;
}.

(** A row of [users] with another value of [is_active]. *)
Definition with_is_active (active : bool) (user : models.User) : models.User := {|
  models.id := models.id user;
  models.email := models.email user;
  models.hashed_password := models.hashed_password user;
  models.is_active := active;
|}.

(** The integers SQLite stores, and the ones [sqlite3] binds to a
    parameter of a query: 64 bits, signed.  Binding another raises
    [OverflowError]. *)
Definition sqlite_integer (n : Z) : bool :=
  (- 2 ^ 63 <=? n)%Z && (n <? 2 ^ 63)%Z.

Definition integer_overflow : exn :=
  Exception "OverflowError" "Python int too large to convert to SQLite INTEGER".

Definition OverflowError {A} : result A := Raise integer_overflow.

(** The key SQLite gives a new row of a table whose primary key is an
    [INTEGER]: one more than the largest key in use, 1 in an empty table. *)
Definition next_id (ids : list Z) : Z := (1 + foldr Z.max 0 ids)%Z.

Definition IntegrityError {A} (constraint : string) : result A :=
  Raise (Exception "IntegrityError" constraint).

(** [db.add(models.User(email=..., hashed_password=...))], [db.commit()]
    and [db.refresh(...)]: the row gets its key and the server default of
    [is_active]; [email] is unique. *)
Definition insert_user (db : Database) (email hashed_password : string)
    : result (models.User * Database) :=
  if existsb (fun u => String.eqb (models.email u) email) (users db)
  then IntegrityError "UNIQUE constraint failed: users.email"
  else
    let user := {|
      models.id := next_id (models.id <$> users db);
      models.email := email;
      models.hashed_password := hashed_password;
      models.is_active := true;
    |} in
    Ok (user, {| users := users db ++ [user]; patients := patients db |}).

(** An object with its key filled in. *)
Definition with_id (key : Z) (patient : Patient) : Patient := {|
  id := key;
  user_id := user_id patient;
  name := name patient;
  age := age patient;
  dob := dob patient;
  gender := gender patient;
  contact_number := contact_number patient;
  email := email patient;
  address := address patient;
|}.

(** The same for a patient; [user_id] is unique.  (SQLite does not
    enforce the foreign key unless asked to.) *)
Definition insert_patient (db : Database) (patient : Patient)
    : result (Patient * Database) :=
  if existsb (fun p => Z.eqb (user_id p) (user_id patient)) (patients db)
  then IntegrityError "UNIQUE constraint failed: patients.user_id"
  else
    let row := with_id (next_id (id <$> patients db)) patient in
    Ok (row, {| users := users db; patients := patients db ++ [row] |}).

(** Writing back an object that was loaded from the table: the row with
    its key takes its columns. *)
Definition update_row (patient : Patient) (rows : list Patient) : list Patient :=
  (fun p => if Z.eqb (id p) (id patient) then patient else p) <$> rows.

(** Deleting an object that was loaded from the table. *)
Definition delete_row (patient : Patient) (rows : list Patient) : list Patient :=
  filter (fun p => id p ≠ id patient) rows.

(** The constraints of the two tables: keys positive and ascending (so
    unique, and a table is read in list order), emails of users unique, at
    most one patient for a user. *)
Record consistent (db : Database) : Prop := {
  user_ids_positive : Forall (fun u => 0 < models.id u)%Z (users db);
  user_ids_ascending : StronglySorted Z.lt (models.id <$> users db);
  user_emails_unique : NoDup (models.email <$> users db);
  patient_ids_positive : Forall (fun p => 0 < id p)%Z (patients db);
  patient_ids_ascending : StronglySorted Z.lt (id <$> patients db);
  patient_users_unique : NoDup (user_id <$> patients db);
}.

End models_rest.

(** ** The rest of [app/crud_user.py] *)

Module crud_user_rest.

Import models_rest.

(** [create_user]: the password of [user_in] is the hash already. *)
Definition create_user (db : Database) (user_in : schemas_rest.UserCreate)
    : result (models.User * Database) :=
  insert_user db (schemas_rest.email user_in) (schemas_rest.password user_in).

(** [db.query(models.User).filter(models.User.id == user_id).first()] *)
Definition get_user_by_id (db : Database) (user_id : Z) : option models.User :=
  find (fun u => Z.eqb (models.id u) user_id) (users db).

End crud_user_rest.

(** ** [app/crud.py] *)

Module crud.

Import models_rest.


Definition get_patient (db : Database) (patient_id : Z) : option Patient :=
  find (fun p => Z.eqb (id p) patient_id) (patients db).



(** [.offset(skip).limit(limit).all()].  The two integers are bound to
    the query.  In SQLite a negative offset counts as zero and a negative
    limit as no limit. *)
Definition list_patients (db : Database) (skip limit : Z) : result (list Patient) :=
  if sqlite_integer skip && sqlite_integer limit then
    let rows := drop (Z.to_nat skip) (patients db) in
    Ok (if (limit <? 0)%Z then rows else take (Z.to_nat limit) rows)
  else OverflowError.

Definition create_patient_profile (db : Database) (payload : schemas_rest.PatientCreate)
    (user_id : Z) : result (Patient * Database) :=
  let patient := {|
    id := 0;
    name := Some (schemas_rest.pc_name payload);
    age := Some (schemas_rest.pc_age payload);
    dob := Some (schemas_rest.pc_dob payload);
    gender := Some (schemas_rest.pc_gender payload);
    contact_number := Some (schemas_rest.pc_contact_number payload);
    email := Some (schemas_rest.pc_email payload);
    address := schemas_rest.pc_address payload;
    models_rest.user_id := user_id;
  |} in
  insert_patient db patient.

(** [if value is not None: setattr(patient, field, value)] *)
Definition provided {A} (value : option A) (column : option A) : option A :=
  match value with
  | Some v => Some v
  | None => column
  end.

(** [update_patient]: the loop over the seven field names, then the
    write.  [patient] is an object loaded from [db]. *)
Definition update_patient (db : Database) (patient : Patient)
    (payload : schemas_rest.PatientUpdate) : Patient * Database :=
  let patient := {|
    id := id patient;
    user_id := user_id patient;
    name := provided (schemas_rest.pu_name payload) (name patient);
    age := provided (schemas_rest.pu_age payload) (age patient);
    gender := provided (schemas_rest.pu_gender payload) (gender patient);
    contact_number :=
      provided (schemas_rest.pu_contact_number payload) (contact_number patient);
    email := provided (schemas_rest.pu_email payload) (email patient);
    address := provided (schemas_rest.pu_address payload) (address patient);
    dob := provided (schemas_rest.pu_dob payload) (dob patient);
  |} in
  (patient, {| users := users db; patients := update_row patient (patients db) |}).

(** [delete_patient]; [patient] is an object loaded from [db]. *)
Definition delete_patient (db : Database) (patient : Patient) : Database :=
  {| users := users db; patients := delete_row patient (patients db) |}.


Definition get_patient_by_user_id (db : Database) (user_id : Z) : option Patient :=
  find (fun p => Z.eqb (models_rest.user_id p) user_id) (patients db).

End crud.

(** ** [app/core/dependencies.py] *)

Module dependencies.

Import config models_rest.

(** [InvalidTokenError(detail=...)] *)
Definition InvalidTokenError (detail : string) : HTTPException := {|
  status_code := 401;
  detail := detail;
  headers := [("WWW-Authenticate", "Bearer")];
|}.

Section dependencies.
Context (jws : jose.JWS) (py : Builtins) (settings : Settings).

(** [get_current_user]; [now] is the instant of the token check.  [str]
    does not fail, so the [except] around it is never entered; [int] is
    outside it, and its [ValueError] leaves the function.  The integer is
    bound to the query of [get_user_by_id], and [sqlite3] raises
    [OverflowError] for one beyond 64 bits; no row has such a key, so the
    test is made where the query finds none. *)
Definition get_current_user (now : Z) (tok : jose.token jws) (db : Database)
    : outcome models.User :=
  match security.decode_access_token jws py settings now tok with
  | Raise (TokenDecodeError msg _) => RaiseHTTP (InvalidTokenError msg)
  | Raise e => RaiseError e
  | Ok payload =>
      (* Extract user ID from 'sub' claim *)
      match payload !! "sub" with
      | None | Some PNone =>
          RaiseHTTP (InvalidTokenError "Token payload missing 'sub' claim")
      | Some user_id =>
          let user_id := py_str py user_id in
          (* Load user from DB *)
          match py_int py (PStr user_id) with
          | None => RaiseError (Exception "ValueError" "invalid literal for int()")
          | Some user_id =>
              match crud_user_rest.get_user_by_id db user_id with
              | Some user => Return user
              | None =>
                  if sqlite_integer user_id
                  then RaiseHTTP (InvalidTokenError "User not found")
                  else of_result OverflowError
              end
          end
      end
  end.

End dependencies.

Definition get_current_patient_or_409 (current_user : models.User) (db : Database)
    : outcome Patient :=
  match crud.get_patient_by_user_id db (models.id current_user) with
  | None =>
      RaiseHTTP {|
        status_code := 409;
        detail := "Patient profile not created yet for this user";
        headers := [];
      |}
  | Some patient => Return patient
  end.

End dependencies.

(** ** [app/routers/auth.py] *)

Module routers_auth.

Import config models_rest.

Section routers_auth.
Context (pwd_context : passlib.CryptContext) (jws : jose.JWS) (py : Builtins).
Context (validators : pydantic.Validators) (settings : Settings).

(** [signup]; [r] is the salt [hash_password] draws.  [user_in] has been
    validated when the function is entered.  A [models.User] object is
    always true, so [if existing] tests for a row. *)
Definition signup (r : passlib.salt pwd_context) (user_in : schemas_rest.UserCreate)
    (db : Database) : outcome (models.User * Database) :=
  (* Check if email is already registered *)
  let existing :=
    find (fun u => String.eqb (models.email u) (schemas_rest.email user_in)) (users db) in
  match existing with
  | Some _ =>
      RaiseHTTP {|
        status_code := 400;
        detail := "Email already registered";
        headers := [];
      |}
  | None =>
      (* Hash password before saving *)
      hashed_password ← of_result
        (security.hash_password pwd_context r (schemas_rest.password user_in));
      user_data ← of_result
        (schemas_rest.new_UserCreate validators (schemas_rest.email user_in)
           hashed_password);
      (* Save to DB using crud_user.py *)
      of_result (crud_user_rest.create_user db user_data)
  end.

(** [{"sub": str(user.id)}] *)
Definition subject (user : models.User) : dict :=
  {[ "sub" := PStr (py_str py (PInt (models.id user))) ]}.

(** [login]; [username] and [password] are the fields of the form, [now]
    is the clock [create_access_token] reads, and the dict of the subject
    is a new object of the store. *)
Definition login (now : Z) (username password : string) (db : Database) (h : heap)
    : outcome (schemas_rest.Token (jose.token jws)) * heap :=
  match schemas_rest.new_LoginSchema validators username password with
  | Raise e => (RaiseError e, h)
  | Ok credentials =>
      match auth_backend.authenticate pwd_context (users db) credentials None with
      | Raise e => (RaiseError e, h)
      | Ok None =>
          (RaiseHTTP {|
             status_code := 401;
             detail := "Invalid credentials";
             headers := [];
           |}, h)
      | Ok (Some user) =>
          match
            run (data ← alloc (subject user);
                 security.create_access_token jws py settings now data None) h
          with
          | (Ok access_token, h') =>
              (Return {|
                 schemas_rest.access_token := access_token;
                 schemas_rest.token_type := "bearer";
               |}, h')
          | (Raise e, h') => (RaiseError e, h')
          end
      end
  end.

End routers_auth.
End routers_auth.

(** ** [app/routers/patients.py] *)

Module routers_patients.

Import models_rest.

(** [create_patient_profile]; a [Patient] object is always true. *)
Definition create_patient_profile (payload : schemas_rest.PatientCreate) (db : Database)
    (current_user : models.User) : outcome (Patient * Database) :=
  (* Check if profile already exists *)
  match crud.get_patient_by_user_id db (models.id current_user) with
  | Some _ =>
      RaiseHTTP {|
        status_code := 409;
        detail := "Patient profile already exists for this user";
        headers := [];
      |}
  | None =>
      (* Create profile; associate with current user *)
      of_result (crud.create_patient_profile db payload (models.id current_user))
  end.

Definition read_current_patient_profile (patient : Patient) : Patient := patient.

Definition update_current_patient_profile (payload : schemas_rest.PatientUpdate)
    (db : Database) (patient : Patient) : Patient * Database :=
  crud.update_patient db patient payload.

Definition delete_current_patient_profile (db : Database) (patient : Patient)
    : Database :=
  crud.delete_patient db patient.

Definition list_all_patients (db : Database) : result (list Patient) :=
  crud.list_patients db 0 100.

(** *** The requests

    FastAPI resolves the dependencies of an endpoint, here
    [get_current_user] and [get_current_patient_or_409] on the bearer
    token of the request, and calls the endpoint with their values; an
    exception of a dependency is the answer to the request.  [now] is the
    clock at the token check. *)

Section requests.
Context (jws : jose.JWS) (py : Builtins) (settings : config.Settings).

Definition current_patient (now : Z) (tok : jose.token jws) (db : Database)
    : outcome Patient :=
  current_user ← dependencies.get_current_user jws py settings now tok db;
  dependencies.get_current_patient_or_409 current_user db.

(** [POST /patients/] *)
Definition post_patient (now : Z) (tok : jose.token jws)
    (payload : schemas_rest.PatientCreate) (db : Database)
    : outcome (Patient * Database) :=
  current_user ← dependencies.get_current_user jws py settings now tok db;
  create_patient_profile payload db current_user.

(** [GET /patients/me] *)
Definition get_me (now : Z) (tok : jose.token jws) (db : Database) : outcome Patient :=
  patient ← current_patient now tok db;
  mret (read_current_patient_profile patient).

(** [PATCH /patients/me] *)
Definition patch_me (now : Z) (tok : jose.token jws)
    (payload : schemas_rest.PatientUpdate) (db : Database)
    : outcome (Patient * Database) :=
  patient ← current_patient now tok db;
  mret (update_current_patient_profile payload db patient).

(** [DELETE /patients/me] *)
Definition delete_me (now : Z) (tok : jose.token jws) (db : Database)
    : outcome Database :=
  patient ← current_patient now tok db;
  mret (delete_current_patient_profile db patient).

End requests.
End routers_patients.

(** ** [app/main.py]: the application of the two routers *)

Module main.

Import models_rest.

Section main.
Context (pwd_context : passlib.CryptContext) (jws : jose.JWS) (py : Builtins).
Context (validators : pydantic.Validators) (settings : config.Settings).

(** The requests that write to the database, each with the database
    before and after it is served. *)
Inductive serves : Database -> Database -> Prop :=
| serves_signup r user_in db user db' :
    routers_auth.signup pwd_context validators r user_in db = Return (user, db') ->
    serves db db'
| serves_post_patient now tok payload db patient db' :
    routers_patients.post_patient jws py settings now tok payload db
      = Return (patient, db') ->
    serves db db'
| serves_patch_me now tok payload db patient db' :
    routers_patients.patch_me jws py settings now tok payload db
      = Return (patient, db') ->
    serves db db'
| serves_delete_me now tok db db' :
    routers_patients.delete_me jws py settings now tok db = Return db' ->
    serves db db'.

End main.
End main.

(** ** Sample data of the request and database layers *)

Module sample.

Import models_rest.

Definition digit (c : ascii) : option Z :=
  let n := Z.of_N (N_of_ascii c) in
  if (48 <=? n)%Z && (n <=? 57)%Z then Some (n - 48)%Z else None.

Fixpoint digits (acc : Z) (s : string) : option Z :=
  match s with
  | EmptyString => Some acc
  | String c s' =>
      match digit c with
      | Some d => digits (10 * acc + d) s'
      | None => None
      end
  end.

(** [int] of a string in the spelling [str] gives an integer: decimal
    digits after an optional minus sign.  (Python reads a few more
    spellings, with blanks around, a plus sign or underscores.) *)
Definition int_of_str (s : string) : option Z :=
  match s with
  | EmptyString => None
  | String "-" EmptyString => None
  | String "-" s' => Z.opp <$> digits 0 s'
  | _ => digits 0 s
  end.

(** [reference.builtins] with [int] of such a string. *)
Definition builtins : Builtins := {|
  py_str := py_str reference.builtins;
  py_int v :=
    match v with
    | PStr s => int_of_str s
    | _ => py_int reference.builtins v
    end;
|}.

Fixpoint has_at (s : string) : bool :=
  match s with
  | EmptyString => false
  | String c s' => Ascii.eqb c "@" || has_at s'
  end.

(** A validator that takes a string with an ["@"] for an address and
    leaves it as it is. *)
Definition validators : pydantic.Validators := {|
  pydantic.EmailStr s := if has_at s then Some s else None;
|}.

Definition empty_db : Database := {| users := []; patients := [] |}.

Definition bob_signup : schemas_rest.UserCreate := {|
  schemas_rest.email := "bob@example.com";
  schemas_rest.password := "hunter2";
|}.

Definition carol_signup : schemas_rest.UserCreate := {|
  schemas_rest.email := "carol@example.com";
  schemas_rest.password := "tr0ub4dor";
|}.

Definition signed_up (db : Database) (r : N) (user_in : schemas_rest.UserCreate)
    : Database :=
  match routers_auth.signup reference.pwd_context validators r user_in db with
  | Return (_, db') => db'
  | _ => db
  end.

(** The database after two signups. *)
Definition two_users : Database :=
  Eval vm_compute in signed_up (signed_up empty_db 7 bob_signup) 11 carol_signup.

Definition bob : models.User :=
  Eval vm_compute in default reference.alice (head (users two_users)).

Definition carol : models.User :=
  Eval vm_compute in default reference.alice (last (users two_users)).

Definition bob_profile : schemas_rest.PatientCreate := {|
  schemas_rest.pc_name := "Bob";
  schemas_rest.pc_age := 41;
  schemas_rest.pc_dob := 5000;
  schemas_rest.pc_gender := "m";
  schemas_rest.pc_contact_number := "555-0100";
  schemas_rest.pc_email := "bob@example.com";
  schemas_rest.pc_address := None;
|}.

Definition carol_profile : schemas_rest.PatientCreate := {|
  schemas_rest.pc_name := "Carol";
  schemas_rest.pc_age := 37;
  schemas_rest.pc_dob := 6500;
  schemas_rest.pc_gender := "f";
  schemas_rest.pc_contact_number := "555-0101";
  schemas_rest.pc_email := "carol@example.com";
  schemas_rest.pc_address := Some "1 Main Street";
|}.

Definition with_profile (db : Database) (user : models.User)
    (payload : schemas_rest.PatientCreate) : Database :=
  match routers_patients.create_patient_profile payload db user with
  | Return (_, db') => db'
  | _ => db
  end.

(** The database after both users have made their profiles. *)
Definition two_patients : Database :=
  Eval vm_compute in with_profile (with_profile two_users bob bob_profile)
                       carol carol_profile.

Definition bob_patient : Patient :=
  Eval vm_compute in
    default (Build_Patient 0 0 None None None None None None None)
      (head (patients two_patients)).

Definition new_address : schemas_rest.PatientUpdate := {|
  schemas_rest.pu_name := None;
  schemas_rest.pu_age := None;
  schemas_rest.pu_gender := None;
  schemas_rest.pu_contact_number := None;
  schemas_rest.pu_email := None;
  schemas_rest.pu_address := Some "2 Side Street";
  schemas_rest.pu_dob := None;
|}.

(** The database after [bob] has made his profile. *)
Definition one_patient : Database :=
  Eval vm_compute in with_profile two_users bob bob_profile.

(** The token of a login whose subject is the numeral of 2^63. *)
Definition large_subject_token : reference.sym_token :=
  reference.Signed
    {[ "sub" := PStr "9223372036854775808"; "exp" := PInt 1767227400;
       "iat" := PInt 1767225600 ]}
    (config.SECRET_KEY config.defaults) (config.ALGORITHM config.defaults).

(** Settings with an issuer. *)
Definition with_issuer : config.Settings :=
  config.with_issuer "patient-service" config.defaults.

(** The token of a login of [bob] at [reference.t0]. *)
Definition bob_token : reference.sym_token :=
  reference.Signed
    {[ "sub" := PStr "1"; "exp" := PInt 1767227400; "iat" := PInt 1767225600 ]}
    (config.SECRET_KEY config.defaults) (config.ALGORITHM config.defaults).

(** A token issued under [with_issuer]. *)
Definition issuer_claims : dict :=
  {[ "sub" := PStr "1"; "exp" := PInt 1767227400; "iat" := PInt 1767225600;
     "iss" := PStr "patient-service" ]}.

Definition issuer_token : reference.sym_token :=
  reference.Signed issuer_claims
    (config.SECRET_KEY config.defaults) (config.ALGORITHM config.defaults).

(** Claims with a subject that is a name. *)
Definition named_subject : dict := {[ "sub" := PStr "alice" ]}.

End sample.

(** * Properties *)

Import config claimset.

Ltac not_standard :=
  repeat (apply not_elem_of_cons; split; [done|]); apply not_elem_of_nil.

(** ** The store monad *)

Section store_lemmas.
Context {A B : Type}.

Lemma run_bind (m : M A) (f : A -> M B) (h : heap) :
  run (m ≫= f) h =
  match run m h with
  | (Ok a, h') => run (f a) h'
  | (Raise e, h') => (Raise e, h')
  end.
Proof. reflexivity. Qed.

Lemma run_ret (a : A) (h : heap) : run (mret a) h = (Ok a, h).
Proof. reflexivity. Qed.

Lemma run_lift (r : result A) (h : heap) : run (lift r) h = (r, h).
Proof. reflexivity. Qed.

Lemma writes_only_ret (l : loc) (a : A) : writes_only l (mret a).
Proof. by intros h l' _. Qed.

Lemma writes_only_raise (l : loc) (e : exn) : writes_only l (@raise A e).
Proof. by intros h l' _. Qed.

Lemma writes_only_lift (l : loc) (r : result A) : writes_only l (lift r).
Proof. by intros h l' _. Qed.

Lemma writes_only_bind (l : loc) (m : M A) (f : A -> M B) :
  writes_only l m -> (forall a, writes_only l (f a)) -> writes_only l (m ≫= f).
Proof.
  intros Hm Hf h l' Hne. rewrite run_bind.
  specialize (Hm h l' Hne).
  destruct (run m h) as [[a|e] h1]; cbn in *; [|done].
  by rewrite Hf.
Qed.

End store_lemmas.

Lemma run_deref (l : loc) (d : dict) (h : heap) :
  h !! l = Some d -> run (deref l) h = (Ok d, h).
Proof. intros Hl. unfold run, deref. by rewrite Hl. Qed.

Lemma run_deref_dangling (l : loc) (h : heap) :
  h !! l = None ->
  run (deref l) h = (Raise (Exception "ReferenceError" "dangling reference"), h).
Proof. intros Hl. unfold run, deref. by rewrite Hl. Qed.

Lemma run_alloc (d : dict) (h : heap) :
  run (alloc d) h = (Ok (fresh (dom h)), <[fresh (dom h) := d]> h).
Proof. reflexivity. Qed.

Lemma run_dict_get (l : loc) (k : string) (d : dict) (h : heap) :
  h !! l = Some d -> run (dict_get l k) h = (Ok (d !! k), h).
Proof. intros Hl. unfold dict_get. rewrite run_bind, (run_deref l d) by done. done. Qed.

Lemma run_dict_contains (l : loc) (k : string) (d : dict) (h : heap) :
  h !! l = Some d ->
  run (dict_contains l k) h = (Ok (bool_decide (is_Some (d !! k))), h).
Proof. intros Hl. unfold dict_contains. rewrite run_bind, (run_deref l d) by done. done. Qed.

Lemma run_dict_getitem (l : loc) (k : string) (d : dict) (v : pyval) (h : heap) :
  h !! l = Some d -> d !! k = Some v -> run (dict_getitem l k) h = (Ok v, h).
Proof.
  intros Hl Hk. unfold dict_getitem.
  rewrite run_bind, (run_deref l d) by done. by rewrite Hk.
Qed.

Lemma run_dict_setitem (l : loc) (k : string) (v : pyval) (d : dict) (h : heap) :
  run (dict_setitem l k v) (<[l := d]> h) = (Ok tt, <[l := <[k := v]> d]> h).
Proof.
  unfold dict_setitem.
  rewrite run_bind, (run_deref l d) by apply lookup_insert_eq.
  unfold run, store. by rewrite insert_insert_eq.
Qed.

(** *** Which object an operation writes *)

Lemma writes_only_deref (l l0 : loc) : writes_only l (deref l0).
Proof. intros h l' _. unfold run, deref. by destruct (h !! l0). Qed.

Lemma writes_only_store (l : loc) (d : dict) : writes_only l (store l d).
Proof. intros h l' Hne. unfold run, store. cbn. by rewrite lookup_insert_ne. Qed.

Lemma writes_only_dict_get (l l0 : loc) (k : string) : writes_only l (dict_get l0 k).
Proof.
  apply writes_only_bind; [apply writes_only_deref | intros d; apply writes_only_ret].
Qed.

Lemma writes_only_dict_contains (l l0 : loc) (k : string) :
  writes_only l (dict_contains l0 k).
Proof.
  apply writes_only_bind; [apply writes_only_deref | intros d; apply writes_only_ret].
Qed.

Lemma writes_only_dict_getitem (l l0 : loc) (k : string) :
  writes_only l (dict_getitem l0 k).
Proof.
  apply writes_only_bind; [apply writes_only_deref | intros d].
  destruct (d !! k); [apply writes_only_ret | apply writes_only_raise].
Qed.

Lemma writes_only_dict_setitem (l : loc) (k : string) (v : pyval) :
  writes_only l (dict_setitem l k v).
Proof.
  apply writes_only_bind; [apply writes_only_deref | intros d; apply writes_only_store].
Qed.

Lemma writes_only_dict_update (l : loc) (items : list (string * pyval)) :
  writes_only l (dict_update l items).
Proof.
  induction items as [|[k v] rest IH]; cbn [dict_update].
  - apply writes_only_ret.
  - apply writes_only_bind; [apply writes_only_dict_setitem | by intros _].
Qed.

Lemma writes_only_to_intdate (l : loc) (k : string) : writes_only l (jose.to_intdate l k).
Proof.
  apply writes_only_bind; [apply writes_only_dict_get | intros v].
  destruct v as [[]|];
    first [apply writes_only_dict_setitem | apply writes_only_ret].
Qed.

Lemma writes_only_encode (jws : jose.JWS) (l : loc) (key alg : string) :
  writes_only l (jose.encode jws l key alg).
Proof.
  unfold jose.encode.
  repeat (apply writes_only_bind; [apply writes_only_to_intdate | intros _]).
  apply writes_only_bind; [apply writes_only_deref | intros d].
  destruct (jose.dict_serialisable d); [apply writes_only_ret | apply writes_only_raise].
Qed.

(** *** The run of [jwt.encode] and of [create_access_token] *)

Lemma run_to_intdate (l : loc) (k : string) (d : dict) (h : heap) :
  run (jose.to_intdate l k) (<[l := d]> h) = (Ok tt, <[l := intdate k d]> h).
Proof.
  unfold jose.to_intdate, intdate.
  rewrite run_bind, (run_dict_get l k d) by apply lookup_insert_eq.
  destruct (d !! k) as [[]|]; try done. apply run_dict_setitem.
Qed.

Lemma run_encode (jws : jose.JWS) (l : loc) (key alg : string) (d : dict) (h : heap) :
  let p := intdate "nbf" (intdate "iat" (intdate "exp" d)) in
  run (jose.encode jws l key alg) (<[l := d]> h) =
  (if jose.dict_serialisable p then Ok (jose.sign jws p key alg)
   else Raise (Exception "TypeError" "Object is not JSON serializable"),
   <[l := p]> h).
Proof.
  intros p. unfold jose.encode.
  rewrite run_bind, run_to_intdate.
  rewrite run_bind, run_to_intdate.
  rewrite run_bind, run_to_intdate.
  rewrite run_bind, (run_deref l p) by apply lookup_insert_eq.
  fold p. by destruct (jose.dict_serialisable p).
Qed.

Lemma run_set_configured (l : loc) (k : string) (o : option string) (d : dict) (h : heap) :
  run (match configured o with
       | Some s => dict_setitem l k (PStr s)
       | None => mret tt
       end) (<[l := d]> h) = (Ok tt, <[l := set_configured k o d]> h).
Proof.
  unfold set_configured. destruct (configured o); [apply run_dict_setitem | done].
Qed.

Lemma expiry_inv (settings : Settings) (now : Z) (expires_delta : option Z) (expire : Z) :
  expiry settings now expires_delta = Ok expire ->
  exists delta,
    lifetime settings expires_delta = Ok delta /\ datetime_add now delta = Ok expire.
Proof.
  unfold expiry. destruct (lifetime settings expires_delta) as [delta|]; [|done].
  cbn. eauto.
Qed.

(** The run of [create_access_token] on a live [data], when the expiry is
    a [datetime]: the copy is made at a fresh address, it ends as
    [issued_claims], and that is what is signed. *)
Lemma create_access_token_run (jws : jose.JWS) (py : Builtins) (settings : Settings)
    (now : Z) (data : loc) (expires_delta : option Z) (d : dict) (expire : Z) (h : heap) :
  h !! data = Some d ->
  expiry settings now expires_delta = Ok expire ->
  let p := issued_claims py settings now expire d in
  run (security.create_access_token jws py settings now data expires_delta) h =
  (if jose.dict_serialisable p
   then Ok (jose.sign jws p (SECRET_KEY settings) (ALGORITHM settings))
   else Raise (Exception "TypeError" "Object is not JSON serializable"),
   <[fresh (dom h) := p]> h).
Proof.
  intros Hd (delta & Hdelta & Hexpire)%expiry_inv p.
  unfold security.create_access_token.
  rewrite run_bind. unfold dict_copy at 1.
  rewrite run_bind, (run_deref data d), run_alloc by done. set (l := fresh (dom h)).
  rewrite run_bind, (run_dict_contains l "sub" d) by apply lookup_insert_eq.
  rewrite run_bind.
  assert (run (if bool_decide (is_Some (d !! "sub"))
               then sub ← dict_getitem l "sub";
                    dict_setitem l "sub" (PStr (py_str py sub))
               else mret tt) (<[l := d]> h)
          = (Ok tt, <[l := coerce_sub py d]> h)) as ->.
  { unfold coerce_sub. destruct (d !! "sub") as [v|] eqn:Hsub.
    - rewrite bool_decide_true by eauto.
      rewrite run_bind, (run_dict_getitem l "sub" d v) by (done || apply lookup_insert_eq).
      apply run_dict_setitem.
    - rewrite bool_decide_false by (intros [? ?]; done). done. }
  unfold lifetime in Hdelta.
  rewrite run_bind, run_lift, Hdelta.
  rewrite run_bind, run_lift, Hexpire.
  rewrite run_bind. cbn [dict_update].
  rewrite run_bind, run_dict_setitem.
  rewrite run_bind, run_dict_setitem, run_ret.
  rewrite run_bind, run_set_configured.
  rewrite run_bind, run_set_configured.
  rewrite run_encode. done.
Qed.

(** Whatever happens in [create_access_token], the objects that were in
    the store before the call are as they were. *)
Lemma create_access_token_frame (jws : jose.JWS) (py : Builtins) (settings : Settings)
    (now : Z) (data : loc) (expires_delta : option Z) (h : heap) (l : loc) :
  is_Some (h !! l) ->
  (run (security.create_access_token jws py settings now data expires_delta) h).2 !! l
  = h !! l.
Proof.
  intros Hl. unfold security.create_access_token.
  rewrite run_bind. unfold dict_copy at 1. rewrite run_bind.
  destruct (h !! data) as [d|] eqn:Hdata; [|by rewrite run_deref_dangling].
  rewrite (run_deref data d), run_alloc by done. set (to_encode := fresh (dom h)).
  assert (l ≠ to_encode) as Hne.
  { intros ->. by apply (is_fresh (dom h)), elem_of_dom. }
  match goal with |- (run ?m _).2 !! _ = _ =>
    assert (writes_only to_encode m) as Hw end.
  { apply writes_only_bind; [apply writes_only_dict_contains | intros has_sub].
    apply writes_only_bind.
    { destruct has_sub; [|apply writes_only_ret].
      apply writes_only_bind; [apply writes_only_dict_getitem | intros sub].
      apply writes_only_dict_setitem. }
    intros _. apply writes_only_bind; [apply writes_only_lift | intros delta].
    apply writes_only_bind; [apply writes_only_lift | intros expire].
    apply writes_only_bind; [apply writes_only_dict_update | intros _].
    apply writes_only_bind.
    { destruct (configured _); [apply writes_only_dict_setitem | apply writes_only_ret]. }
    intros _. apply writes_only_bind.
    { destruct (configured _); [apply writes_only_dict_setitem | apply writes_only_ret]. }
    intros _. apply writes_only_encode. }
  rewrite (Hw _ l Hne). by rewrite lookup_insert_ne.
Qed.

(** ** Items of the issued claim set *)

Lemma lookup_intdate_ne (k k' : string) (d : dict) :
  k ≠ k' -> intdate k d !! k' = d !! k'.
Proof.
  intros Hne. unfold intdate. destruct (d !! k) as [[]|]; try done.
  by rewrite lookup_insert_ne.
Qed.

Lemma lookup_intdate_eq (k : string) (d : dict) :
  intdate k d !! k =
  match d !! k with
  | Some (PDatetime us) => Some (PInt (timegm us))
  | o => o
  end.
Proof.
  unfold intdate. destruct (d !! k) as [[]|] eqn:Hk; try done.
  by rewrite lookup_insert_eq.
Qed.

Lemma lookup_set_configured_ne (k k' : string) (o : option string) (d : dict) :
  k ≠ k' -> set_configured k o d !! k' = d !! k'.
Proof.
  intros Hne. unfold set_configured. destruct (configured o); [|done].
  by rewrite lookup_insert_ne.
Qed.

Lemma lookup_set_configured_eq (k : string) (o : option string) (d : dict) :
  set_configured k o d !! k =
  match configured o with
  | Some s => Some (PStr s)
  | None => d !! k
  end.
Proof.
  unfold set_configured. destruct (configured o); [|done].
  by rewrite lookup_insert_eq.
Qed.

Lemma lookup_coerce_sub_ne (py : Builtins) (k : string) (d : dict) :
  k ≠ "sub" -> coerce_sub py d !! k = d !! k.
Proof.
  intros Hne. unfold coerce_sub. destruct (d !! "sub"); [|done].
  by rewrite lookup_insert_ne.
Qed.

Lemma lookup_coerce_sub_eq (py : Builtins) (d : dict) :
  coerce_sub py d !! "sub" = (fun v => PStr (py_str py v)) <$> d !! "sub".
Proof.
  unfold coerce_sub. destruct (d !! "sub") eqn:Hs; [|by rewrite Hs].
  by rewrite lookup_insert_eq.
Qed.

Section issued.
Context (py : Builtins) (settings : Settings) (now expire : Z) (d : dict).

Abbreviation p := (issued_claims py settings now expire d).

Lemma issued_exp : p !! "exp" = Some (PInt (timegm expire)).
Proof.
  unfold issued_claims.
  rewrite !lookup_intdate_ne, lookup_intdate_eq by done.
  rewrite !lookup_set_configured_ne by done.
  by rewrite lookup_insert_ne, lookup_insert_eq by done.
Qed.

Lemma issued_iat : p !! "iat" = Some (PInt (timegm now)).
Proof.
  unfold issued_claims.
  rewrite lookup_intdate_ne, lookup_intdate_eq by done.
  rewrite lookup_intdate_ne, !lookup_set_configured_ne by done.
  by rewrite lookup_insert_eq.
Qed.

Lemma issued_iss :
  p !! "iss" =
  match configured (JWT_ISSUER settings) with
  | Some s => Some (PStr s)
  | None => d !! "iss"
  end.
Proof.
  unfold issued_claims.
  rewrite !lookup_intdate_ne, lookup_set_configured_ne by done.
  rewrite lookup_set_configured_eq.
  destruct (configured _); [done|].
  by rewrite !lookup_insert_ne, lookup_coerce_sub_ne by done.
Qed.

Lemma issued_aud :
  p !! "aud" =
  match configured (JWT_AUDIENCE settings) with
  | Some s => Some (PStr s)
  | None => d !! "aud"
  end.
Proof.
  unfold issued_claims.
  rewrite !lookup_intdate_ne, lookup_set_configured_eq by done.
  destruct (configured _); [done|].
  rewrite lookup_set_configured_ne by done.
  by rewrite !lookup_insert_ne, lookup_coerce_sub_ne by done.
Qed.

Lemma issued_sub : p !! "sub" = (fun v => PStr (py_str py v)) <$> d !! "sub".
Proof.
  unfold issued_claims.
  rewrite !lookup_intdate_ne, !lookup_set_configured_ne by done.
  by rewrite !lookup_insert_ne, lookup_coerce_sub_eq by done.
Qed.

Lemma issued_nbf :
  p !! "nbf" =
  match d !! "nbf" with
  | Some (PDatetime us) => Some (PInt (timegm us))
  | o => o
  end.
Proof.
  unfold issued_claims.
  rewrite lookup_intdate_eq.
  rewrite !lookup_intdate_ne, !lookup_set_configured_ne by done.
  by rewrite !lookup_insert_ne, lookup_coerce_sub_ne by done.
Qed.

Lemma issued_other (k : string) :
  k ∉ ["sub"; "exp"; "iat"; "iss"; "aud"; "nbf"] -> p !! k = d !! k.
Proof.
  intros Hk. repeat (apply not_elem_of_cons in Hk as [? Hk]).
  unfold issued_claims.
  rewrite !lookup_intdate_ne, !lookup_set_configured_ne by done.
  by rewrite !lookup_insert_ne, lookup_coerce_sub_ne by done.
Qed.

(** Every key of the caller's dict is a key of the issued claim set. *)
Lemma issued_keys (k : string) : is_Some (d !! k) -> is_Some (p !! k).
Proof.
  intros Hk.
  destruct (decide (k ∈ ["sub"; "exp"; "iat"; "iss"; "aud"; "nbf"])) as [Hin|Hout].
  - repeat (apply elem_of_cons in Hin as [->|Hin]); [..|by apply elem_of_nil in Hin].
    + rewrite issued_sub. destruct Hk as [v ->]. eauto.
    + rewrite issued_exp. eauto.
    + rewrite issued_iat. eauto.
    + rewrite issued_iss. destruct (configured _); eauto.
    + rewrite issued_aud. destruct (configured _); eauto.
    + rewrite issued_nbf. destruct Hk as [v ->]. destruct v; eauto.
  - by rewrite issued_other.
Qed.

End issued.


(** ** The reference instances satisfy the laws *)

Lemma Ok_inj {A} (a b : A) : Ok a = Ok b -> a = b.
Proof. by intros [= ->]. Qed.

Lemma reference_int_of_int : int_of_int reference.builtins.
Proof. by intros n. Qed.

Lemma reference_sign_verify : jose.sign_verify reference.jws.
Proof.
  intros claims key alg. cbn.
  by rewrite !String.eqb_refl.
Qed.

Lemma reference_hash_inv (seed : N) (s h : string) :
  passlib.hash reference.pwd_context seed s = Ok h ->
  reference.bcrypt_secret_error s = None /\
  h = reference.bcrypt_ident +:+ reference.salt_chars 22 seed
        +:+ reference.bcrypt_digested s.
Proof.
  cbn [passlib.hash reference.pwd_context].
  destruct (reference.bcrypt_secret_error s); [done|].
  intros H%Ok_inj. by split.
Qed.

Lemma reference_fresh_hash_verifies : passlib.fresh_hash_verifies reference.pwd_context.
Proof.
  intros seed s h [Herr ->]%reference_hash_inv.
  cbn [passlib.verify reference.pwd_context]. rewrite Herr.
  cbn. by rewrite String.eqb_refl.
Qed.

Lemma reference_fresh_hash_current : passlib.fresh_hash_current reference.pwd_context.
Proof. by intros seed s h [Herr ->]%reference_hash_inv. Qed.

Lemma reference_verified_hash_known : passlib.verified_hash_known reference.pwd_context.
Proof.
  intros s h. cbn [passlib.verify passlib.needs_update reference.pwd_context].
  destruct (reference.bcrypt_secret_error s); [done|].
  destruct (_ && _); [|done]. intros _. by exists false.
Qed.

Lemma reference_verify_sound :
  passlib.verify_sound reference.pwd_context reference.bcrypt_digested.
Proof.
  intros seed s1 s2 h [Herr ->]%reference_hash_inv.
  cbn [passlib.verify reference.pwd_context].
  destruct (reference.bcrypt_secret_error s1); [done|].
  cbn. intros [= Heq]. by apply String.eqb_eq in Heq.
Qed.

(** ** Password verification *)

Section passwords.
Context (pwd_context : passlib.CryptContext).

Abbreviation hash_password := (security.hash_password pwd_context).
Abbreviation verify_password := (security.verify_password pwd_context).

(** When the current scheme does not accept, only the legacy check decides. *)
Lemma verify_password_rejected (s h : string)
    (legacy : option (string -> string -> result bool)) :
  passlib.verify pwd_context s h ≠ Ok true ->
  verify_password s h legacy =
  match legacy with
  | Some f =>
      match f s h with
      | Ok true => Ok (true, true)
      | _ => Ok (false, false)
      end
  | None => Ok (false, false)
  end.
Proof.
  intros Hv. unfold security.verify_password.
  destruct (passlib.verify pwd_context s h) as [[]|e]; [done|..]; cbn;
    (destruct legacy as [f|]; [|done]); by destruct (f s h) as [[]|].
Qed.

(** C2. For every secret [s], verifying [s] against the hash that
    [hash_password] has produced for it returns isValid = true and
    shouldRehash = false, whatever salt was drawn and whether or not a
    legacy check is supplied: a fresh hash of the current scheme verifies
    and does not need updating. *)
Theorem verify_fresh_hash (r : passlib.salt pwd_context) (s h : string)
    (legacy : option (string -> string -> result bool)) :
  passlib.fresh_hash_verifies pwd_context ->
  passlib.fresh_hash_current pwd_context ->
  hash_password r s = Ok h ->
  verify_password s h legacy = Ok (true, false).
Proof.
  intros Hverifies Hcurrent Hh. unfold security.verify_password.
  rewrite (Hverifies r s h Hh). cbn.
  by rewrite (Hcurrent r s h Hh).
Qed.

(** C4. For every secret and stored value on which the current-scheme
    check fails (it returns false or raises), with a legacy check supplied
    [verify_password] returns (true, true) when the legacy check returns
    true and (false, false) when it returns false; an error raised by the
    legacy check also gives (false, false). *)
Theorem verify_legacy_path (s h : string) (legacy : string -> string -> result bool) :
  passlib.verify pwd_context s h ≠ Ok true ->
  (legacy s h = Ok true -> verify_password s h (Some legacy) = Ok (true, true)) /\
  (legacy s h = Ok false -> verify_password s h (Some legacy) = Ok (false, false)) /\
  (forall e, legacy s h = Raise e -> verify_password s h (Some legacy) = Ok (false, false)).
Proof.
  intros Hv. rewrite (verify_password_rejected s h (Some legacy) Hv).
  repeat split; [intros Hl | intros Hl | intros e Hl]; by rewrite Hl.
Qed.

(** C5. For every secret, stored hash and optional legacy check,
    [verify_password] returns a pair of booleans and raises nothing.  An
    error of the current-scheme attempt counts as a failed attempt and an
    error of the legacy check as a failed check; the one library call
    outside a [try], [needs_update], is only reached with a hash the
    context has just verified. *)
Theorem verify_password_never_raises (s h : string)
    (legacy : option (string -> string -> result bool)) :
  passlib.verified_hash_known pwd_context ->
  (exists valid rehash : bool, verify_password s h legacy = Ok (valid, rehash)) /\
  (forall e, passlib.verify pwd_context s h = Raise e ->
     verify_password s h None = Ok (false, false)) /\
  (forall f e, passlib.verify pwd_context s h ≠ Ok true -> f s h = Raise e ->
     verify_password s h (Some f) = Ok (false, false)).
Proof.
  intros Hknown. split; [|split].
  - assert (passlib.verify pwd_context s h = Ok true \/
            passlib.verify pwd_context s h ≠ Ok true) as [Hv|Hv]
      by (destruct (passlib.verify pwd_context s h) as [[]|]; auto).
    + destruct (Hknown s h Hv) as [b Hb].
      exists true, b. unfold security.verify_password. rewrite Hv. cbn. by rewrite Hb.
    + rewrite (verify_password_rejected s h legacy Hv).
      destruct legacy as [f|]; [|by eauto].
      destruct (f s h) as [[]|]; eauto.
  - intros e He. apply verify_password_rejected. by rewrite He.
  - intros f e Hv Hf. rewrite (verify_password_rejected s h (Some f) Hv). by rewrite Hf.
Qed.

(** C6, amended. For every pair of secrets whose digested parts differ
    (for bcrypt, secrets that differ within their first 72 bytes),
    verifying the first against a hash of the second, with no legacy
    check, returns (false, false). *)
Theorem verify_other_secret (digested : string -> string)
    (r : passlib.salt pwd_context) (s1 s2 h : string) :
  passlib.verify_sound pwd_context digested ->
  hash_password r s2 = Ok h ->
  digested s1 ≠ digested s2 ->
  verify_password s1 h None = Ok (false, false).
Proof.
  intros Hsound Hh Hne.
  apply (verify_password_rejected s1 h None).
  intros Hv. by apply Hne, (Hsound r s1 s2 h).
Qed.

End passwords.

(** ** Token validation *)

Lemma bind_Ok_inv {A B} (r : result A) (f : A -> result B) (b : B) :
  r ≫= f = Ok b -> exists a, r = Ok a /\ f a = Ok b.
Proof. destruct r as [a|e]; cbn; [eauto|done]. Qed.

Lemma bind_Raise_inv {A B} (r : result A) (f : A -> result B) (e : exn) :
  r ≫= f = Raise e -> r = Raise e \/ exists a, r = Ok a /\ f a = Raise e.
Proof. destruct r as [a|e']; cbn; [eauto|]. intros [= ->]. by left. Qed.

Lemma jose_only_bind {A B} (r : result A) (f : A -> result B) :
  jose.jose_only r -> (forall a, jose.jose_only (f a)) -> jose.jose_only (r ≫= f).
Proof. destruct r as [a|e]; cbn; auto. Qed.

Lemma jose_only_claims_error {A} (msg : string) : jose.jose_only (@jose.claims_error A msg).
Proof. cbn. eauto. Qed.

Lemma jose_or_type_error_bind {A B} (r : result A) (f : A -> result B) :
  jose.jose_or_type_error r -> (forall a, jose.jose_or_type_error (f a)) ->
  jose.jose_or_type_error (r ≫= f).
Proof. destruct r as [a|e]; cbn; auto. Qed.

Lemma jose_or_type_error_claims_error {A} (msg : string) :
  jose.jose_or_type_error (@jose.claims_error A msg).
Proof. cbn. eauto. Qed.

Lemma jose_or_type_error_not_an_integer {A} (v : pyval) (msg : string) :
  jose.jose_or_type_error (@jose.not_an_integer A v msg).
Proof. unfold jose.not_an_integer. destruct (jose.is_str v); cbn; eauto. Qed.

(** A result that is not jose's [ExpiredSignatureError]. *)
Abbreviation not_expired r :=
  (forall m, r ≠ Raise (JoseError (ExpiredSignatureError m))).

Section validation.
Context (jws : jose.JWS) (py : Builtins).

(** What the checks of [jwt.decode] raise: jose's own errors, and the
    [TypeError] of [int] on a time claim that is no string and no number. *)
Lemma validate_claims_errors (claims : dict) (audience issuer : option string)
    (opts : jose.options) (now : Z) :
  jose.jose_or_type_error (jose._validate_claims py claims audience issuer opts now).
Proof.
  unfold jose._validate_claims.
  repeat (apply jose_or_type_error_bind; [|intros _]).
  - unfold jose._validate_iat. repeat case_match; try done;
      apply jose_or_type_error_not_an_integer.
  - unfold jose._validate_nbf. repeat case_match; try done;
      [apply jose_or_type_error_claims_error | apply jose_or_type_error_not_an_integer].
  - unfold jose._validate_exp. repeat case_match; try done;
      [cbn; eauto | apply jose_or_type_error_not_an_integer].
  - unfold jose._validate_aud. repeat case_match; try done;
      apply jose_or_type_error_claims_error.
  - unfold jose._validate_iss. repeat case_match; try done;
      apply jose_or_type_error_claims_error.
  - unfold jose._validate_sub. repeat case_match; try done;
      apply jose_or_type_error_claims_error.
  - unfold jose._validate_jti. repeat case_match; try done;
      apply jose_or_type_error_claims_error.
  - unfold jose._validate_at_hash. repeat case_match; try done;
      apply jose_or_type_error_claims_error.
Qed.


(** The [TypeError] comes from a time claim that [int] does not read and
    that is no string. *)
Lemma validate_claims_type_error (claims : dict) (audience issuer : option string)
    (opts : jose.options) (now : Z) (v : pyval) :
  jose._validate_claims py claims audience issuer opts now
    = Raise (jose.int_type_error v) ->
  exists k v',
    k ∈ ["iat"; "nbf"; "exp"] /\ claims !! k = Some v' /\
    py_int py v' = None /\ jose.is_str v' = false.
Proof.
  assert (forall k w msg,
            claims !! k = Some w -> py_int py w = None ->
            @jose.not_an_integer unit w msg = Raise (jose.int_type_error v) ->
            k ∈ ["iat"; "nbf"; "exp"] ->
            exists k v', k ∈ ["iat"; "nbf"; "exp"] /\ claims !! k = Some v' /\
              py_int py v' = None /\ jose.is_str v' = false) as Hcase.
  { intros k w msg Hk Hw Hn Hin. exists k, w. repeat split; try done.
    unfold jose.not_an_integer in Hn. by destruct (jose.is_str w). }
  assert (forall (r : result unit), jose.jose_only r ->
            r ≠ Raise (jose.int_type_error v)) as Hjose.
  { intros [|e] Hr; [done|]. destruct Hr as [j ->]. done. }
  unfold jose._validate_claims. intros H.
  apply bind_Raise_inv in H as [H|[[] [_ H]]].
  { unfold jose._validate_iat in H.
    destruct (claims !! "iat") as [w|] eqn:Hk; [|done].
    destruct (py_int py w) eqn:Hw; [done|].
    eapply Hcase; [done..|]. set_solver. }
  apply bind_Raise_inv in H as [H|[[] [_ H]]].
  { unfold jose._validate_nbf in H.
    destruct (claims !! "nbf") as [w|] eqn:Hk; [|done].
    destruct (py_int py w) eqn:Hw; [by case_match|].
    eapply Hcase; [done..|]. set_solver. }
  apply bind_Raise_inv in H as [H|[[] [_ H]]].
  { unfold jose._validate_exp in H.
    destruct (claims !! "exp") as [w|] eqn:Hk; [|done].
    destruct (py_int py w) eqn:Hw; [by case_match|].
    eapply Hcase; [done..|]. set_solver. }
  exfalso. revert H. apply Hjose.
  repeat (apply jose_only_bind; [|intros _]).
  - unfold jose._validate_aud. repeat case_match; try done; apply jose_only_claims_error.
  - unfold jose._validate_iss. repeat case_match; try done; apply jose_only_claims_error.
  - unfold jose._validate_sub. repeat case_match; try done; apply jose_only_claims_error.
  - unfold jose._validate_jti. repeat case_match; try done; apply jose_only_claims_error.
  - unfold jose._validate_at_hash. repeat case_match; try done; apply jose_only_claims_error.
Qed.

(** Only the expiry check reports an expired signature. *)
Lemma validate_exp_expired (claims : dict) (now : Z) (m : string) :
  jose._validate_exp py claims now = Raise (JoseError (ExpiredSignatureError m)) ->
  exists v exp,
    claims !! "exp" = Some v /\ py_int py v = Some exp /\ (exp < timegm now)%Z.
Proof.
  unfold jose._validate_exp.
  destruct (claims !! "exp") as [v|] eqn:Hexp; [|done].
  destruct (py_int py v) as [exp|] eqn:Hint;
    [|unfold jose.not_an_integer; by case_match].
  destruct (exp <? timegm now)%Z eqn:Hlt; [|done].
  intros _. exists v, exp. apply Z.ltb_lt in Hlt. auto.
Qed.

Lemma validate_claims_expired (claims : dict) (audience issuer : option string)
    (opts : jose.options) (now : Z) (m : string) :
  jose._validate_claims py claims audience issuer opts now
    = Raise (JoseError (ExpiredSignatureError m)) ->
  exists v exp,
    claims !! "exp" = Some v /\ py_int py v = Some exp /\ (exp < timegm now)%Z.
Proof.
  assert (not_expired (jose._validate_iat py claims)) as Hiat
    by (unfold jose._validate_iat, jose.not_an_integer; intros m';
        repeat case_match; done).
  assert (not_expired (jose._validate_nbf py claims now)) as Hnbf
    by (unfold jose._validate_nbf, jose.not_an_integer; intros m';
        repeat case_match; done).
  assert (not_expired (if jose.verify_aud opts
                       then jose._validate_aud claims audience else Ok tt)) as Haud
    by (unfold jose._validate_aud; intros m'; repeat case_match; done).
  assert (not_expired (jose._validate_iss claims issuer)) as Hiss
    by (unfold jose._validate_iss; intros m'; repeat case_match; done).
  assert (not_expired (jose._validate_sub claims)) as Hsub
    by (unfold jose._validate_sub; intros m'; repeat case_match; done).
  assert (not_expired (jose._validate_jti claims)) as Hjti
    by (unfold jose._validate_jti; intros m'; repeat case_match; done).
  assert (not_expired (jose._validate_at_hash claims)) as Hath
    by (unfold jose._validate_at_hash; intros m'; repeat case_match; done).
  unfold jose._validate_claims. intros H.
  apply bind_Raise_inv in H as [H|[[] [_ H]]]; [by apply Hiat in H|].
  apply bind_Raise_inv in H as [H|[[] [_ H]]]; [by apply Hnbf in H|].
  apply bind_Raise_inv in H as [H|[[] [_ H]]]; [by apply validate_exp_expired in H|].
  apply bind_Raise_inv in H as [H|[[] [_ H]]]; [by apply Haud in H|].
  apply bind_Raise_inv in H as [H|[[] [_ H]]]; [by apply Hiss in H|].
  apply bind_Raise_inv in H as [H|[[] [_ H]]]; [by apply Hsub in H|].
  apply bind_Raise_inv in H as [H|[[] [_ H]]]; [by apply Hjti in H|].
  by apply Hath in H.
Qed.

Context (settings : Settings).

Abbreviation decode_access_token := (security.decode_access_token jws py settings).


Lemma decode_access_token_Ok_inv (now : Z) (tok : jose.token jws) (payload : dict) :
  decode_access_token now tok = Ok payload ->
  jose.verify jws tok (SECRET_KEY settings) [ALGORITHM settings] = Some payload /\
  jose._validate_claims py payload (configured (JWT_AUDIENCE settings))
    (configured (JWT_ISSUER settings))
    {| jose.verify_aud := truthy (JWT_AUDIENCE settings) |} now = Ok tt.
Proof.
  unfold security.decode_access_token, jose.decode.
  destruct (jose.verify jws tok _ _) as [claims|]; [|done].
  destruct (jose._validate_claims _ _ _ _ _ _) as [[]|e] eqn:Hv; cbn.
  - by intros [= ->].
  - destruct e as [| [] | |]; done.
Qed.

Lemma decode_access_token_verified (now : Z) (tok : jose.token jws) (claims : dict) :
  jose.verify jws tok (SECRET_KEY settings) [ALGORITHM settings] = Some claims ->
  jose._validate_claims py claims (configured (JWT_AUDIENCE settings))
    (configured (JWT_ISSUER settings))
    {| jose.verify_aud := truthy (JWT_AUDIENCE settings) |} now = Ok tt ->
  decode_access_token now tok = Ok claims.
Proof.
  intros Hv Hc. unfold security.decode_access_token, jose.decode.
  by rewrite Hv, Hc.
Qed.

Lemma decode_access_token_expired_inv (now : Z) (tok : jose.token jws)
    (cause : jose_error) :
  decode_access_token now tok = Raise (TokenDecodeError "token expired" cause) ->
  exists claims v exp,
    jose.verify jws tok (SECRET_KEY settings) [ALGORITHM settings] = Some claims /\
    claims !! "exp" = Some v /\ py_int py v = Some exp /\ (exp < timegm now)%Z.
Proof.
  unfold security.decode_access_token, jose.decode.
  destruct (jose.verify jws tok _ _) as [claims|]; [|done].
  pose proof (validate_claims_errors claims (configured (JWT_AUDIENCE settings))
    (configured (JWT_ISSUER settings))
    {| jose.verify_aud := truthy (JWT_AUDIENCE settings) |} now) as Hj.
  destruct (jose._validate_claims _ _ _ _ _ _) as [[]|e] eqn:Hv; cbn; [done|].
  destruct Hj as [[[m'|m'|m'] ->]|[v' ->]]; try discriminate.
  intros _. apply validate_claims_expired in Hv as (v & exp & Hexp & Hint & Hlt).
  by exists claims, v, exp.
Qed.

(** The [TypeError] leaves [decode_access_token] only for a token that
    verifies and has a time claim that is no string and that [int] does
    not read. *)
Lemma decode_access_token_type_error_inv (now : Z) (tok : jose.token jws) (v : pyval) :
  decode_access_token now tok = Raise (jose.int_type_error v) ->
  exists claims k v',
    jose.verify jws tok (SECRET_KEY settings) [ALGORITHM settings] = Some claims /\
    k ∈ ["iat"; "nbf"; "exp"] /\ claims !! k = Some v' /\
    py_int py v' = None /\ jose.is_str v' = false.
Proof.
  unfold security.decode_access_token, jose.decode.
  destruct (jose.verify jws tok _ _) as [claims|]; [|done].
  pose proof (validate_claims_errors claims (configured (JWT_AUDIENCE settings))
    (configured (JWT_ISSUER settings))
    {| jose.verify_aud := truthy (JWT_AUDIENCE settings) |} now) as Hj.
  destruct (jose._validate_claims _ _ _ _ _ _) as [[]|e] eqn:Hv; cbn; [done|].
  destruct Hj as [[[m'|m'|m'] ->]|[v' ->]]; try discriminate.
  intros _. apply validate_claims_type_error in Hv as (k & w & Hin & Hk & Hw & Hs).
  by exists claims, k, w.
Qed.

End validation.

(** ** Audience *)

Section audience.
Context (jws : jose.JWS) (py : Builtins).

(** A claim set without ["aud"] passes with [verify_aud] on as it does
    with [verify_aud] off. *)
Lemma validate_claims_no_aud (p : dict) (audience audience' issuer : option string)
    (opts opts' : jose.options) (now : Z) :
  p !! "aud" = None ->
  jose._validate_claims py p audience issuer opts now =
  jose._validate_claims py p audience' issuer opts' now.
Proof.
  intros Hp. unfold jose._validate_claims, jose._validate_aud. rewrite Hp.
  by destruct (jose.verify_aud opts), (jose.verify_aud opts').
Qed.

(** The audience check does not reach a token without the claim: it is
    decoded as it is with no audience configured. *)
Lemma decode_without_aud_claim (settings : Settings) (now : Z) (tok : jose.token jws)
    (p : dict) :
  jose.verify jws tok (SECRET_KEY settings) [ALGORITHM settings] = Some p ->
  p !! "aud" = None ->
  security.decode_access_token jws py settings now tok =
  security.decode_access_token jws py (without_audience settings) now tok.
Proof.
  intros Hv Hp. unfold security.decode_access_token, jose.decode. cbn.
  rewrite Hv.
  by rewrite (validate_claims_no_aud p _ None _ _ {| jose.verify_aud := false |} now Hp).
Qed.

End audience.

(** ** Token issuance *)

Section issuance.
Context (jws : jose.JWS) (py : Builtins) (settings : Settings).

Abbreviation create_access_token := (security.create_access_token jws py settings).
Abbreviation decode_access_token := (security.decode_access_token jws py settings).

(** C9. For every claims dict passed to [create_access_token], in every
    store, the caller's dict holds the same items after the call as before
    it, and so does every other object that was in the store, whether the
    call returns a token or raises: the subject coercion, the standard
    claims and the issuer and audience are written to the copy. *)
Theorem create_access_token_preserves_caller_dict (now : Z) (data : loc)
    (expires_delta : option Z) (h : heap) (l : loc) (d : dict) :
  h !! l = Some d ->
  (run (create_access_token now data expires_delta) h).2 !! l = Some d.
Proof.
  intros Hl. rewrite create_access_token_frame by eauto. done.
Qed.

(** C10. For every claims dict [d] passed to [create_access_token], the
    claim set that is signed holds the expiry and issuance instants the
    service computed under ["exp"] and ["iat"], whatever [d] holds under
    these keys, and the configured issuer and audience under ["iss"] and
    ["aud"] when they are configured, whatever [d] holds there.  ([expire]
    is the instant [now] plus the lifetime in force; the call returns the
    token unless a value of the claim set is not serialisable.) *)
Theorem standard_claims_overwritten (now : Z) (data : loc) (expires_delta : option Z)
    (h : heap) (d : dict) (expire : Z) :
  h !! data = Some d ->
  expiry settings now expires_delta = Ok expire ->
  exists p,
    (run (create_access_token now data expires_delta) h).2 !! fresh (dom h) = Some p /\
    (run (create_access_token now data expires_delta) h).1 =
      (if jose.dict_serialisable p
       then Ok (jose.sign jws p (SECRET_KEY settings) (ALGORITHM settings))
       else Raise (Exception "TypeError" "Object is not JSON serializable")) /\
    p !! "exp" = Some (PInt (timegm expire)) /\
    p !! "iat" = Some (PInt (timegm now)) /\
    (forall iss, configured (JWT_ISSUER settings) = Some iss ->
       p !! "iss" = Some (PStr iss)) /\
    (forall aud, configured (JWT_AUDIENCE settings) = Some aud ->
       p !! "aud" = Some (PStr aud)).
Proof.
  intros Hd Hexpire. exists (issued_claims py settings now expire d).
  rewrite (create_access_token_run jws py settings now data expires_delta d expire h
             Hd Hexpire).
  cbn [fst snd]. rewrite lookup_insert_eq.
  repeat split.
  - apply issued_exp.
  - apply issued_iat.
  - intros iss Hiss. by rewrite issued_iss, Hiss.
  - intros aud Haud. by rewrite issued_aud, Haud.
Qed.

Lemma timegm_add_seconds (now ttl : Z) :
  timegm (now + seconds ttl) = (timegm now + ttl)%Z.
Proof. unfold timegm, seconds. by rewrite Z.div_add. Qed.

Lemma timedelta_minutes_inv (m us : Z) :
  timedelta_minutes m = Ok us -> us = seconds (m * 60).
Proof.
  unfold timedelta_minutes, seconds. case_bool_decide; [|done].
  intros [= <-]. lia.
Qed.

Lemma datetime_add_inv (dt delta us : Z) :
  datetime_add dt delta = Ok us -> us = (dt + delta)%Z.
Proof. unfold datetime_add. case_bool_decide; [|done]. by intros [= <-]. Qed.

Lemma issued_serialisable (now expire : Z) (d : dict) :
  jose.dict_serialisable d = true ->
  jose.dict_serialisable (issued_claims py settings now expire d) = true.
Proof.
  intros Hd%bool_decide_eq_true. apply bool_decide_eq_true. intros k v Hk.
  destruct (decide (k ∈ ["sub"; "exp"; "iat"; "iss"; "aud"; "nbf"])) as [Hin|Hout].
  - repeat (apply elem_of_cons in Hin as [->|Hin]); [..|by apply elem_of_nil in Hin].
    + rewrite issued_sub in Hk. destruct (d !! "sub"); by simplify_eq/=.
    + rewrite issued_exp in Hk. by simplify_eq.
    + rewrite issued_iat in Hk. by simplify_eq.
    + rewrite issued_iss in Hk. destruct (configured _); [by simplify_eq|]. by eapply Hd.
    + rewrite issued_aud in Hk. destruct (configured _); [by simplify_eq|]. by eapply Hd.
    + rewrite issued_nbf in Hk. destruct (d !! "nbf") as [v'|] eqn:Hn; [|done].
      destruct v'; simplify_eq; try done; by eapply Hd.
  - rewrite issued_other in Hk by done. by eapply Hd.
Qed.

(** C1, amended. Let the claims dict [d] hold JSON-serialisable values
    and nothing the decoder refuses on its own account (an ["nbf"] later
    than the decoding instant, a ["jti"] that is no string, an
    ["at_hash"]); let the lifetime in force, the requested one or else the
    configured one, be a whole number [ttl] of seconds that leads to an
    expiry within the range of [datetime]; and let the token be decoded
    no later than the second it expires in.  Then [create_access_token]
    returns a token, [decode_access_token] returns its payload, the
    payload has every key of [d], the ["sub"] value as [str] gives it,
    every other value that is not a standard claim as it is in [d], and
    integers under ["exp"] and ["iat"] that differ by [ttl].  With no
    requested lifetime, [ttl] is the configured number of minutes times
    60. *)
Theorem issue_then_decode (now now' : Z) (data : loc) (expires_delta : option Z)
    (h : heap) (d : dict) (ttl : Z) :
  int_of_int py ->
  jose.sign_verify jws ->
  h !! data = Some d ->
  jose.dict_serialisable d = true ->
  jose._validate_nbf py d now' = Ok tt ->
  jose._validate_jti d = Ok tt ->
  jose._validate_at_hash d = Ok tt ->
  expiry settings now expires_delta = Ok (now + seconds ttl)%Z ->
  (timegm now' <= timegm now + ttl)%Z ->
  exists tok payload exp iat,
    (run (create_access_token now data expires_delta) h).1 = Ok tok /\
    decode_access_token now' tok = Ok payload /\
    (forall k, is_Some (d !! k) -> is_Some (payload !! k)) /\
    (forall v, d !! "sub" = Some v -> payload !! "sub" = Some (PStr (py_str py v))) /\
    (forall k, k ∉ ["sub"; "exp"; "iat"; "iss"; "aud"] -> payload !! k = d !! k) /\
    payload !! "exp" = Some (PInt exp) /\
    payload !! "iat" = Some (PInt iat) /\
    (exp - iat)%Z = ttl /\
    (expires_delta = None -> ttl = (ACCESS_TOKEN_EXPIRE_MINUTES settings * 60)%Z).
Proof.
  intros Hint Hsv Hd Hser Hnbf Hjti Hath Hexpire Hnow.
  set (p := issued_claims py settings now (now + seconds ttl) d).
  assert (p !! "nbf" = d !! "nbf") as Hpnbf.
  { subst p. rewrite issued_nbf. destruct (d !! "nbf") as [v|] eqn:Hn; [|done].
    destruct v; try done. apply bool_decide_eq_true in Hser. by apply Hser in Hn. }
  assert (p !! "exp" = Some (PInt (timegm now + ttl))) as Hpexp.
  { subst p. by rewrite issued_exp, timegm_add_seconds. }
  exists (jose.sign jws p (SECRET_KEY settings) (ALGORITHM settings)), p,
    (timegm now + ttl)%Z, (timegm now).
  split; [|split; [|split; [|split; [|split; [|split; [|split; [|split]]]]]]].
  - rewrite (create_access_token_run jws py settings now data expires_delta d
               (now + seconds ttl) h Hd Hexpire).
    cbn [fst]. fold p. subst p. by rewrite issued_serialisable.
  - apply decode_access_token_verified; [apply Hsv|].
    unfold jose._validate_claims.
    assert (jose._validate_iat py p = Ok tt) as ->.
    { unfold jose._validate_iat. subst p. by rewrite issued_iat, Hint. }
    assert (jose._validate_nbf py p now' = Ok tt) as ->.
    { unfold jose._validate_nbf in *. by rewrite Hpnbf. }
    assert (jose._validate_exp py p now' = Ok tt) as ->.
    { unfold jose._validate_exp. rewrite Hpexp, Hint.
      by rewrite (proj2 (Z.ltb_ge _ _)). }
    assert ((if jose.verify_aud {| jose.verify_aud := truthy (JWT_AUDIENCE settings) |}
             then jose._validate_aud p (configured (JWT_AUDIENCE settings))
             else Ok tt) = Ok tt) as ->.
    { cbn [jose.verify_aud]. unfold truthy, jose._validate_aud.
      subst p. rewrite issued_aud.
      destruct (configured (JWT_AUDIENCE settings)) as [aud|]; [|done].
      cbn. by rewrite String.eqb_refl. }
    assert (jose._validate_iss p (configured (JWT_ISSUER settings)) = Ok tt) as ->.
    { unfold jose._validate_iss. subst p. rewrite issued_iss.
      destruct (configured (JWT_ISSUER settings)) as [iss|]; [|done].
      cbn. by rewrite String.eqb_refl. }
    assert (jose._validate_sub p = Ok tt) as ->.
    { unfold jose._validate_sub. subst p. rewrite issued_sub.
      by destruct (d !! "sub"). }
    assert (jose._validate_jti p = Ok tt) as ->.
    { unfold jose._validate_jti in *. subst p. by rewrite issued_other by not_standard. }
    unfold jose._validate_at_hash in *. subst p. by rewrite issued_other by not_standard.
  - intros k. apply issued_keys.
  - intros v Hv. subst p. by rewrite issued_sub, Hv.
  - intros k Hk. destruct (decide (k = "nbf")) as [->|Hne]; [done|].
    subst p. apply issued_other.
    repeat (apply not_elem_of_cons in Hk as [? Hk]). not_standard.
  - done.
  - apply issued_iat.
  - lia.
  - intros ->. apply expiry_inv in Hexpire as (delta & Hdelta & Hadd).
    apply timedelta_minutes_inv in Hdelta. apply datetime_add_inv in Hadd.
    unfold seconds in *. lia.
Qed.

End issuance.

(** ** Authentication *)

Section authentication.
Context (pwd_context : passlib.CryptContext).

Abbreviation authenticate := (auth_backend.authenticate pwd_context).
Abbreviation verify_password := (security.verify_password pwd_context).

(** C8. For every database and credential, [authenticate] with no
    backend runs the database backend, and it returns the user exactly
    when the lookup by email finds that user and [verify_password] reports
    the password valid against the stored hash.  When no user has the
    email and when the password is not valid it returns the same [None]. *)
Theorem authenticate_default_backend (db : crud_user.Session)
    (credentials : schemas.LoginSchema) :
  authenticate db credentials None =
    auth_backend.backend_authenticate (auth_backend.DatabaseAuthBackend pwd_context)
      db credentials /\
  (forall user,
     authenticate db credentials None = Ok (Some user) <->
     crud_user.get_user_by_email db (schemas.email credentials) = Some user /\
     exists rehash,
       verify_password (schemas.password credentials) (models.hashed_password user) None
       = Ok (true, rehash)) /\
  (crud_user.get_user_by_email db (schemas.email credentials) = None ->
     authenticate db credentials None = Ok None) /\
  (forall user rehash,
     crud_user.get_user_by_email db (schemas.email credentials) = Some user ->
     verify_password (schemas.password credentials) (models.hashed_password user) None
     = Ok (false, rehash) ->
     authenticate db credentials None = Ok None).
Proof.
  split; [done|].
  unfold auth_backend.authenticate. cbn [auth_backend.backend_authenticate
    auth_backend.DatabaseAuthBackend].
  destruct (crud_user.get_user_by_email db (schemas.email credentials)) as [u|].
  - destruct (verify_password (schemas.password credentials)
                (models.hashed_password u) None) as [[valid rehash]|e] eqn:Hv; cbn.
    + destruct valid; cbn.
      * split; [|split]; [| done | intros user r [= <-] Hf; congruence].
        intros user. split; [intros [= <-]; eauto | by intros [[= <-] _]].
      * split; [|split]; [| done | done].
        intros user. split; [done|]. intros [[= <-] [r Hr]]. congruence.
    + split; [|split]; [| done | intros user r [= <-] Hf; congruence].
      intros user. split; [done|]. intros [[= <-] [r Hr]]. congruence.
  - split; [|done]. intros user. split; [done|]. by intros [[=] _].
Qed.

End authentication.

(** ** Concrete runs on the reference instances *)

Import reference.

Abbreviation ref_verify_password := (security.verify_password pwd_context).
Abbreviation ref_create_access_token := (security.create_access_token jws builtins).
Abbreviation ref_decode_access_token := (security.decode_access_token jws builtins).
Abbreviation ref_authenticate := (auth_backend.authenticate pwd_context).

(** C2 at the password of [test_hash_and_verify_password_and_rehash_flag]. *)
Lemma verify_fresh_hash_witness :
  security.hash_password pwd_context 5%N "very-secure-password-123!"
    = Ok (models.hashed_password alice) /\
  ref_verify_password "very-secure-password-123!" (models.hashed_password alice) None
    = Ok (true, false).
Proof.
  split; [reflexivity|].
  apply (verify_fresh_hash pwd_context 5%N "very-secure-password-123!" _ None
           reference_fresh_hash_verifies reference_fresh_hash_current).
  reflexivity.
Defined.

(** C4 at the legacy hash of [test_verify_with_legacy_hash_triggers_rehash]. *)
Lemma verify_legacy_path_witness :
  passlib.verify pwd_context "old-password" "LEGACY:old-password" ≠ Ok true /\
  ref_verify_password "old-password" "LEGACY:old-password" (Some legacy_verify_example)
    = Ok (true, true).
Proof.
  assert (passlib.verify pwd_context "old-password" "LEGACY:old-password" ≠ Ok true)
    as Hv by (vm_compute; discriminate).
  split; [exact Hv|].
  apply (proj1 (verify_legacy_path pwd_context "old-password" "LEGACY:old-password"
                  legacy_verify_example Hv)).
  reflexivity.
Defined.

(** C5 at a stored value that is no hash, with a legacy check that raises. *)
Lemma verify_password_never_raises_witness :
  passlib.verified_hash_known pwd_context /\
  exists valid rehash : bool,
    ref_verify_password "secret" "not-a-hash" (Some legacy_verify_broken)
    = Ok (valid, rehash).
Proof.
  split; [exact reference_verified_hash_known|].
  exact (proj1 (verify_password_never_raises pwd_context "secret" "not-a-hash"
                  (Some legacy_verify_broken) reference_verified_hash_known)).
Defined.

(** C6, amended, at two short secrets. *)
Lemma verify_other_secret_witness :
  passlib.verify_sound pwd_context bcrypt_digested /\
  bcrypt_digested "hunter2" ≠ bcrypt_digested "very-secure-password-123!" /\
  ref_verify_password "hunter2" (models.hashed_password alice) None = Ok (false, false).
Proof.
  assert (bcrypt_digested "hunter2" ≠ bcrypt_digested "very-secure-password-123!")
    as Hne by (vm_compute; discriminate).
  split; [exact reference_verify_sound|]. split; [exact Hne|].
  apply (verify_other_secret pwd_context bcrypt_digested 5%N "hunter2"
           "very-secure-password-123!" _ reference_verify_sound); [reflexivity|exact Hne].
Defined.

(** C6, as stated, fails: two distinct secrets that agree on their first
    72 bytes; the hash of one accepts the other. *)
Lemma verify_other_secret_counterexample :
  long_secret "x" ≠ long_secret "y" /\
  exists h,
    security.hash_password pwd_context 5%N (long_secret "y") = Ok h /\
    ref_verify_password (long_secret "x") h None = Ok (true, false).
Proof.
  split; [vm_compute; discriminate|].
  eexists. split; [vm_compute; reflexivity|]. vm_compute. reflexivity.
Qed.

(** C3 (code bug). [decode_access_token] does not fail closed.  The token
    that [create_access_token] issues for the claims
    [{"sub": "1", "nbf": None}] verifies, and decoding it raises the
    [TypeError] of [int(None)], which is no [TokenDecodeError]: jose's
    check of ["nbf"] catches [ValueError] only, and [decode_access_token]
    catches jose's errors only.  The same happens for a token signed with
    the configured key whose ["exp"] is a list. *)
Theorem decode_raises_type_error :
  issue_then_validate defaults defaults t0 t0 null_nbf_claims None
    = Raise (jose.int_type_error PNone) /\
  ref_decode_access_token defaults t0 list_exp_token
    = Raise (jose.int_type_error (PList [PInt 4102444800])) /\
  (forall v msg cause, jose.int_type_error v ≠ TokenDecodeError msg cause).
Proof. repeat split; try (vm_compute; reflexivity). intros v msg cause. by destruct v. Qed.

(** C7 (code bug). The configured audience is not enforced on a token
    without the claim.  Under settings with the audience "patients", the
    token issued for [{"sub": "1"}] under settings with no audience, which
    has no ["aud"], is decoded and its payload returned.  The check is
    on, since a token for the audience "billing" is refused; and on the
    sibling path, under settings with an issuer, the same token, which
    has no ["iss"], is refused. *)
Theorem audience_not_enforced :
  issue_then_validate defaults (with_audience "patients" defaults) t0 t0
    {[ "sub" := PStr "1" ]} None
    = Ok {[ "sub" := PStr "1"; "exp" := PInt 1767227400; "iat" := PInt 1767225600 ]} /\
  ref_decode_access_token (with_audience "patients" defaults) t0 other_audience_token
    = Raise (TokenDecodeError "invalid token or claims" (JWTClaimsError "Invalid audience")) /\
  issue_then_validate defaults (with_issuer "patient-service" defaults) t0 t0
    {[ "sub" := PStr "1" ]} None
    = Raise (TokenDecodeError "invalid token or claims" (JWTClaimsError "Invalid issuer")).
Proof. repeat split; vm_compute; reflexivity. Qed.

(** C9 at a dict that sets the standard claims itself. *)
Lemma create_access_token_preserves_caller_dict_witness :
  (run (ref_create_access_token defaults t0 1%positive None)
     (store_of forged_claims)).2 !! 1%positive = Some forged_claims.
Proof.
  apply (create_access_token_preserves_caller_dict jws builtins defaults t0 1%positive
           None (store_of forged_claims) 1%positive forged_claims).
  reflexivity.
Defined.

(** C10 at the same dict, with the default lifetime. *)
Lemma standard_claims_overwritten_witness :
  exists p,
    (run (ref_create_access_token defaults t0 1%positive None)
       (store_of forged_claims)).2 !! fresh (dom (store_of forged_claims)) = Some p /\
    (run (ref_create_access_token defaults t0 1%positive None)
       (store_of forged_claims)).1 =
      (if jose.dict_serialisable p
       then Ok (jose.sign jws p (SECRET_KEY defaults) (ALGORITHM defaults))
       else Raise (Exception "TypeError" "Object is not JSON serializable")) /\
    p !! "exp" = Some (PInt (timegm (t0 + seconds 1800))) /\
    p !! "iat" = Some (PInt (timegm t0)) /\
    (forall iss, configured (JWT_ISSUER defaults) = Some iss ->
       p !! "iss" = Some (PStr iss)) /\
    (forall aud, configured (JWT_AUDIENCE defaults) = Some aud ->
       p !! "aud" = Some (PStr aud)).
Proof.
  exact (standard_claims_overwritten jws builtins defaults t0 1%positive None
           (store_of forged_claims) forged_claims (t0 + seconds 1800) eq_refl eq_refl).
Defined.

(** C1, amended, at the claims of a login, decoded five seconds after
    issuance. *)
Lemma issue_then_decode_witness :
  exists tok payload exp iat,
    (run (ref_create_access_token defaults t0 1%positive None)
       (store_of login_claims)).1 = Ok tok /\
    ref_decode_access_token defaults (t0 + seconds 5) tok = Ok payload /\
    payload !! "sub" = Some (PStr "42") /\
    payload !! "user_id" = Some (PInt 123) /\
    payload !! "exp" = Some (PInt exp) /\
    payload !! "iat" = Some (PInt iat) /\
    (exp - iat)%Z = 1800%Z.
Proof.
  destruct (issue_then_decode jws builtins defaults t0 (t0 + seconds 5) 1%positive None
              (store_of login_claims) login_claims 1800
              reference_int_of_int reference_sign_verify eq_refl eq_refl eq_refl
              eq_refl eq_refl eq_refl)
    as (tok & payload & exp & iat & Hrun & Hdec & _ & Hsub & Hother & Hexp & Hiat & Httl & _).
  - vm_compute. discriminate.
  - exists tok, payload, exp, iat.
    split; [exact Hrun|]. split; [exact Hdec|].
    split; [exact (Hsub (PInt 42) eq_refl)|].
    split; [|split; [exact Hexp|split; [exact Hiat|exact Httl]]].
    rewrite (Hother "user_id"); [reflexivity|]. not_standard.
Defined.

(** C1, as stated, fails: with a negative lifetime the token is expired
    when it is issued, and with a lifetime of 1.5 seconds the decoded
    [exp] and [iat] are one second apart. *)
Lemma issue_then_decode_counterexample :
  issue_then_validate defaults defaults t0 t0 login_claims (Some (seconds (-60)))
    = Raise (TokenDecodeError "token expired"
               (ExpiredSignatureError "Signature has expired.")) /\
  issue_then_validate defaults defaults t0 t0 login_claims (Some 1500000%Z)
    = Ok {[ "sub" := PStr "42"; "user_id" := PInt 123;
            "exp" := PInt 1767225601; "iat" := PInt 1767225600 ]}.
Proof. split; vm_compute; reflexivity. Qed.

(** The scenario of the specification: [issue({"sub": 42})] with the
    default lifetime, decoded at once. *)
Example end_to_end :
  issue_then_validate defaults defaults t0 t0 {[ "sub" := PInt 42 ]} None
  = Ok {[ "sub" := PStr "42"; "exp" := PInt (1767225600 + 1800);
          "iat" := PInt 1767225600 ]}.
Proof. vm_compute. reflexivity. Qed.

(** The caller's ["exp"] (the year 2100) and ["iat"] do not reach the
    payload. *)
Example forged_claims_decoded :
  issue_then_validate defaults defaults t0 t0 forged_claims None
  = Ok {[ "sub" := PStr "42"; "user_id" := PInt 123;
          "exp" := PInt 1767227400; "iat" := PInt 1767225600 ]}.
Proof. vm_compute. reflexivity. Qed.

(** A string that is no signed token. *)
Example garbage_token :
  ref_decode_access_token defaults t0 (Unsigned "not.a.token")
  = Raise (TokenDecodeError "invalid token or claims"
             (JWTError "Signature verification failed.")).
Proof. reflexivity. Qed.

(** A secret with a NUL byte is refused by [hash_password] and counts as
    a failed attempt in [verify_password]. *)
Example nul_secret :
  let s := String Ascii.zero "abc" in
  (exists e, security.hash_password pwd_context 5%N s = Raise e) /\
  ref_verify_password s (models.hashed_password alice) None = Ok (false, false).
Proof. split; [eexists|]; reflexivity. Qed.

(** Login with the right password, with a wrong one, and with an unknown
    email. *)
Example authenticate_alice :
  ref_authenticate [alice] (alice_login "very-secure-password-123!") None
    = Ok (Some alice) /\
  ref_authenticate [alice] (alice_login "hunter2") None = Ok None /\
  ref_authenticate [] (alice_login "very-secure-password-123!") None = Ok None.
Proof. repeat split; reflexivity. Qed.

Example authenticate_azure :
  ref_authenticate [alice] (alice_login "very-secure-password-123!")
    (Some auth_backend.AzureB2CAuthBackend)
  = Raise (NotImplementedError "Azure B2C authentication not yet implemented.").
Proof. reflexivity. Qed.

(** * Properties of the request and database layers *)

Import models_rest.

(** ** Queries and tables *)

Section find.
Context {A : Type}.

Lemma find_app (f : A -> bool) (l1 l2 : list A) :
  find f (l1 ++ l2) = match find f l1 with Some x => Some x | None => find f l2 end.
Proof. induction l1 as [|x l1 IH]; [done|]. cbn. by destruct (f x). Qed.

Lemma find_None (f : A -> bool) (l : list A) :
  find f l = None <-> Forall (fun x => f x = false) l.
Proof.
  induction l as [|x l IH]; cbn.
  - split; [constructor | done].
  - rewrite Forall_cons. destruct (f x); [|by rewrite IH; intuition].
    split; [done | by intros [? _]].
Qed.

Lemma find_existsb (f : A -> bool) (l : list A) :
  existsb f l = bool_decide (is_Some (find f l)).
Proof.
  induction l as [|x l IH]; cbn; [done|].
  by destruct (f x); cbn.
Qed.

Lemma find_Some_elem (f : A -> bool) (l : list A) (x : A) :
  find f l = Some x -> x ∈ l /\ f x = true.
Proof.
  induction l as [|y l IH]; cbn; [done|].
  destruct (f y) eqn:Hy.
  - intros [= ->]. split; [left | done].
  - intros [? ?]%IH. split; [by right | done].
Qed.

(** [first()] of a query on a unique column gives the only row there is. *)
Lemma find_unique {K : Type} (key : A -> K) (f : A -> bool) (k : K) (l : list A) (x : A) :
  (forall y, f y = true <-> key y = k) ->
  NoDup (key <$> l) ->
  find f l = Some x <-> x ∈ l /\ key x = k.
Proof.
  intros Hf Hnd. split.
  { intros [? ?]%find_Some_elem. by rewrite <- Hf. }
  intros [Hx Hk]. induction l as [|y l IH]; [by apply elem_of_nil in Hx|].
  cbn in *. apply NoDup_cons in Hnd as [Hy Hnd].
  apply elem_of_cons in Hx as [->|Hx].
  - by rewrite (proj2 (Hf y) Hk).
  - destruct (f y) eqn:Hfy; [|by apply IH].
    exfalso. apply Hy. apply Hf in Hfy. rewrite Hfy, <- Hk.
    apply list_elem_of_fmap. by exists x.
Qed.

End find.

Lemma ascending_NoDup (l : list Z) : StronglySorted Z.lt l -> NoDup l.
Proof.
  induction 1 as [|x l _ IH Hx]; constructor; [|done].
  intros Hin. rewrite Forall_forall in Hx. specialize (Hx x Hin). lia.
Qed.

Lemma next_id_above (ids : list Z) : Forall (fun i => i < next_id ids)%Z ids.
Proof.
  unfold next_id. induction ids as [|i ids IH]; constructor; cbn; [lia|].
  eapply Forall_impl; [exact IH|]. cbn. intros; lia.
Qed.

Lemma next_id_positive (ids : list Z) : (0 < next_id ids)%Z.
Proof. unfold next_id. induction ids; cbn; lia. Qed.

Lemma ascending_snoc (ids : list Z) :
  StronglySorted Z.lt ids -> StronglySorted Z.lt (ids ++ [next_id ids]).
Proof.
  intros Hs. apply StronglySorted_app. split; [|split; [done | repeat constructor]].
  intros x1 x2 H1 ->%list_elem_of_singleton.
  pose proof (next_id_above ids) as Ha. rewrite Forall_forall in Ha. by apply Ha.
Qed.

Lemma next_id_fresh (ids : list Z) : next_id ids ∉ ids.
Proof.
  intros Hin. pose proof (next_id_above ids) as Ha.
  rewrite Forall_forall in Ha. specialize (Ha _ Hin). lia.
Qed.

Lemma user_ids_unique (db : Database) :
  consistent db -> NoDup (models.id <$> users db).
Proof. intros []. by apply ascending_NoDup. Qed.

Lemma patient_ids_unique (db : Database) :
  consistent db -> NoDup (id <$> patients db).
Proof. intros []. by apply ascending_NoDup. Qed.

Lemma get_user_by_email_None (rows : list models.User) (e : string) :
  crud_user.get_user_by_email rows e = None <-> e ∉ models.email <$> rows.
Proof.
  unfold crud_user.get_user_by_email. rewrite find_None, Forall_forall. split.
  - intros Hf (u & -> & Hu)%list_elem_of_fmap. specialize (Hf u Hu).
    by rewrite String.eqb_refl in Hf.
  - intros Hn u Hu. apply String.eqb_neq. intros <-. apply Hn.
    apply list_elem_of_fmap. by exists u.
Qed.

Lemma get_patient_by_user_id_None (db : Database) (uid : Z) :
  crud.get_patient_by_user_id db uid = None <-> uid ∉ user_id <$> patients db.
Proof.
  unfold crud.get_patient_by_user_id. rewrite find_None, Forall_forall. split.
  - intros Hf (p & -> & Hp)%list_elem_of_fmap. specialize (Hf p Hp). lia.
  - intros Hn p Hp. apply Z.eqb_neq. intros <-. apply Hn.
    apply list_elem_of_fmap. by exists p.
Qed.

(** What [insert_user] does when the email is free. *)
Lemma insert_user_free (db : Database) (e hp : string) :
  crud_user.get_user_by_email (users db) e = None ->
  insert_user db e hp =
  Ok ({| models.id := next_id (models.id <$> users db); models.email := e;
         models.hashed_password := hp; models.is_active := true |},
      {| users := users db ++
           [{| models.id := next_id (models.id <$> users db); models.email := e;
               models.hashed_password := hp; models.is_active := true |}];
         patients := patients db |}).
Proof.
  intros Hn. unfold insert_user. rewrite find_existsb.
  unfold crud_user.get_user_by_email in Hn. rewrite Hn.
  by rewrite bool_decide_false by (by intros [? ?]).
Qed.

Lemma insert_user_taken (db : Database) (e hp : string) :
  is_Some (crud_user.get_user_by_email (users db) e) ->
  insert_user db e hp = IntegrityError "UNIQUE constraint failed: users.email".
Proof.
  intros Hs. unfold insert_user. rewrite find_existsb.
  by rewrite bool_decide_true.
Qed.

Lemma insert_user_consistent (db db' : Database) (e hp : string) (user : models.User) :
  consistent db -> insert_user db e hp = Ok (user, db') -> consistent db'.
Proof.
  intros Hc. destruct (crud_user.get_user_by_email (users db) e) eqn:Hg.
  { rewrite insert_user_taken by eauto. done. }
  rewrite insert_user_free by done. intros [= <- <-].
  destruct Hc. split; cbn; try done.
  - apply Forall_app. split; [done|]. repeat constructor. cbn. apply next_id_positive.
  - rewrite fmap_app. cbn. by apply ascending_snoc.
  - rewrite fmap_app. cbn. apply NoDup_app. split; [done|]. split.
    + intros x Hx ->%list_elem_of_singleton. by apply get_user_by_email_None in Hg.
    + apply NoDup_singleton.
Qed.

Lemma two_users_consistent : consistent sample.two_users.
Proof.
  split; cbn; try (repeat constructor; lia); by apply (bool_decide_unpack _).
Qed.

Lemma two_patients_consistent : consistent sample.two_patients.
Proof.
  split; cbn; try (repeat constructor; lia); by apply (bool_decide_unpack _).
Qed.

(** ** [crud_user] *)

(** X1. [create_user] guards the [users] table: with the constraints in force
    it stores the row exactly when no user has the email, the new key is
    above every key of the table, the row is appended, the [patients]
    table is as it was and the constraints still hold; when a user has
    the email it raises [IntegrityError]. *)
Theorem create_user_unique_email (db : Database) (user_in : schemas_rest.UserCreate) :
  consistent db ->
  (crud_user.get_user_by_email (users db) (schemas_rest.email user_in) = None ->
   exists user db',
     crud_user_rest.create_user db user_in = Ok (user, db') /\
     consistent db' /\
     Forall (fun u => models.id u < models.id user)%Z (users db) /\
     models.hashed_password user = schemas_rest.password user_in /\
     models.is_active user = true /\
     users db' = users db ++ [user] /\
     patients db' = patients db) /\
  (is_Some (crud_user.get_user_by_email (users db) (schemas_rest.email user_in)) ->
   crud_user_rest.create_user db user_in =
   IntegrityError "UNIQUE constraint failed: users.email").
Proof.
  intros Hc. unfold crud_user_rest.create_user. split.
  - intros Hn. eexists _, _. split; [by apply insert_user_free|].
    split; [|split; [|done]].
    + eapply insert_user_consistent; [done | by apply insert_user_free].
    + cbn. pose proof (next_id_above (models.id <$> users db)) as Ha.
      by rewrite Forall_fmap in Ha.
  - apply insert_user_taken.
Qed.

(** X2. A user that [create_user] has stored is the one the lookups by its
    key and by its email return, and every other lookup gives what it
    gave before. *)
Theorem create_user_then_lookup (db db' : Database) (user_in : schemas_rest.UserCreate)
    (user : models.User) :
  crud_user_rest.create_user db user_in = Ok (user, db') ->
  crud_user_rest.get_user_by_id db' (models.id user) = Some user /\
  crud_user.get_user_by_email (users db') (schemas_rest.email user_in) = Some user /\
  (forall i, i ≠ models.id user ->
     crud_user_rest.get_user_by_id db' i = crud_user_rest.get_user_by_id db i) /\
  (forall e, e ≠ schemas_rest.email user_in ->
     crud_user.get_user_by_email (users db') e = crud_user.get_user_by_email (users db) e).
Proof.
  unfold crud_user_rest.create_user.
  destruct (crud_user.get_user_by_email (users db) (schemas_rest.email user_in)) eqn:Hg.
  { rewrite insert_user_taken; [done|]. rewrite Hg. eauto. }
  rewrite insert_user_free by done. intros [= <- <-].
  unfold crud_user_rest.get_user_by_id, crud_user.get_user_by_email in *. cbn.
  repeat split.
  - rewrite find_app. cbn. rewrite Z.eqb_refl.
    assert (find (fun u => (models.id u =? next_id (models.id <$> users db))%Z) (users db)
            = None) as ->; [|done].
    apply find_None. pose proof (next_id_above (models.id <$> users db)) as Ha.
    rewrite Forall_fmap in Ha. eapply Forall_impl; [exact Ha|]. cbn. intros; lia.
  - rewrite find_app, Hg. cbn. by rewrite String.eqb_refl.
  - intros i Hi. rewrite find_app. cbn.
    rewrite (proj2 (Z.eqb_neq _ _)) by (cbn in Hi; congruence). by case_match.
  - intros e He. rewrite find_app. cbn.
    rewrite (proj2 (String.eqb_neq _ _)) by congruence. by case_match.
Qed.

(** X2 at the second signup of the sample table. *)
Lemma create_user_then_lookup_witness :
  crud_user_rest.get_user_by_id sample.two_users 2 = Some sample.carol /\
  crud_user.get_user_by_email (users sample.two_users) "carol@example.com"
    = Some sample.carol.
Proof.
  pose proof (create_user_then_lookup (sample.signed_up sample.empty_db 7 sample.bob_signup)
                sample.two_users
                {| schemas_rest.email := "carol@example.com";
                   schemas_rest.password := models.hashed_password sample.carol |}
                sample.carol eq_refl) as (H1 & H2 & _).
  exact (conj H1 H2).
Defined.

(** X1 at an address that is taken. *)
Lemma create_user_unique_email_witness :
  consistent sample.two_users /\
  crud_user_rest.create_user sample.two_users sample.bob_signup =
    IntegrityError "UNIQUE constraint failed: users.email".
Proof.
  split; [exact two_users_consistent|].
  apply (create_user_unique_email sample.two_users sample.bob_signup two_users_consistent).
  vm_compute. eauto.
Defined.

Lemma lookup_by_unique_column_aux (db : Database) :
  consistent db ->
  (forall i p, crud.get_patient db i = Some p <-> p ∈ patients db /\ id p = i) /\
  (forall i p, crud.get_patient_by_user_id db i = Some p <->
     p ∈ patients db /\ user_id p = i).
Proof.
  intros Hc. pose proof (patient_ids_unique db Hc).
  destruct Hc. split; intros i x.
  - by apply (find_unique id); [intros y; apply Z.eqb_eq|].
  - by apply (find_unique user_id); [intros y; apply Z.eqb_eq|].
Qed.

(** X3. With the constraints in force, [first()] of a query on a key, on the
    email of a user, or on the user of a patient returns a row exactly
    when it is the row of the table with that value. *)
Theorem lookup_by_unique_column (db : Database) :
  consistent db ->
  (forall i u, crud_user_rest.get_user_by_id db i = Some u <->
     u ∈ users db /\ models.id u = i) /\
  (forall e u, crud_user.get_user_by_email (users db) e = Some u <->
     u ∈ users db /\ models.email u = e) /\
  (forall i p, crud.get_patient db i = Some p <-> p ∈ patients db /\ id p = i) /\
  (forall i p, crud.get_patient_by_user_id db i = Some p <->
     p ∈ patients db /\ user_id p = i).
Proof.
  intros Hc. pose proof (user_ids_unique db Hc). pose proof (patient_ids_unique db Hc).
  destruct Hc. split; [|split; [|split]]; intros i x.
  - by apply (find_unique models.id); [intros y; apply Z.eqb_eq|].
  - by apply (find_unique models.email); [intros y; apply String.eqb_eq|].
  - by apply (find_unique id); [intros y; apply Z.eqb_eq|].
  - by apply (find_unique user_id); [intros y; apply Z.eqb_eq|].
Qed.

(** X3 at the profile of the first user. *)
Lemma lookup_by_unique_column_witness :
  consistent sample.two_patients /\
  (forall p, crud.get_patient_by_user_id sample.two_patients 1 = Some p <->
     p ∈ patients sample.two_patients /\ user_id p = 1%Z).
Proof.
  split; [exact two_patients_consistent|].
  exact (proj2 (proj2 (proj2 (lookup_by_unique_column sample.two_patients
                                two_patients_consistent))) 1%Z).
Defined.

(** ** [crud] and the patients router *)

Lemma insert_patient_free (db : Database) (patient : Patient) :
  crud.get_patient_by_user_id db (user_id patient) = None ->
  insert_patient db patient =
  Ok (with_id (next_id (id <$> patients db)) patient,
      {| users := users db;
         patients := patients db ++ [with_id (next_id (id <$> patients db)) patient] |}).
Proof.
  intros Hn. unfold insert_patient. rewrite find_existsb.
  unfold crud.get_patient_by_user_id in Hn. rewrite Hn.
  by rewrite bool_decide_false by (by intros [? ?]).
Qed.

Lemma insert_patient_consistent (db db' : Database) (patient row : Patient) :
  consistent db -> insert_patient db patient = Ok (row, db') -> consistent db'.
Proof.
  intros Hc. unfold insert_patient. rewrite find_existsb.
  case_bool_decide as Hs; [done|]. intros [= <- <-].
  assert (crud.get_patient_by_user_id db (user_id patient) = None) as Hg.
  { unfold crud.get_patient_by_user_id.  destruct (find _ _) eqn:Hf; [|done].
    destruct Hs. eauto. }
  destruct Hc. split; cbn; try done.
  - apply Forall_app. split; [done|]. repeat constructor. cbn. apply next_id_positive.
  - rewrite fmap_app. cbn. by apply ascending_snoc.
  - rewrite fmap_app. cbn. apply NoDup_app. split; [done|]. split.
    + intros x Hx ->%list_elem_of_singleton. by apply get_patient_by_user_id_None in Hg.
    + apply NoDup_singleton.
Qed.

(** Rows of a table with unique keys that share a key are one row. *)
Lemma same_key_same_row {A K : Type} (key : A -> K) (l : list A) (x y : A) :
  NoDup (key <$> l) -> x ∈ l -> y ∈ l -> key x = key y -> x = y.
Proof.
  intros Hnd Hx Hy Hk. induction l as [|z l IH]; [by apply elem_of_nil in Hx|].
  cbn in Hnd. apply NoDup_cons in Hnd as [Hz Hnd].
  apply elem_of_cons in Hx as [->|Hx]; apply elem_of_cons in Hy as [->|Hy]; auto.
  - destruct Hz. rewrite Hk. by apply list_elem_of_fmap_2.
  - destruct Hz. rewrite <- Hk. by apply list_elem_of_fmap_2.
Qed.

Lemma update_row_id (rows : list Patient) (patient' : Patient) :
  id <$> update_row patient' rows = id <$> rows.
Proof.
  unfold update_row. rewrite <- list_fmap_compose. apply list_fmap_ext.
  intros i p Hp. cbn. by destruct (Z.eqb_spec (id p) (id patient')).
Qed.

Lemma update_row_user_id (rows : list Patient) (patient patient' : Patient) :
  NoDup (id <$> rows) -> patient ∈ rows ->
  id patient' = id patient -> user_id patient' = user_id patient ->
  user_id <$> update_row patient' rows = user_id <$> rows.
Proof.
  intros Hunique Hin Hid Huser.
  unfold update_row. rewrite <- list_fmap_compose. apply list_fmap_ext.
  intros i p Hp%list_elem_of_lookup_2. cbn.
  destruct (Z.eqb_spec (id p) (id patient')) as [Heq|]; [|done].
  rewrite Huser. f_equal. apply (same_key_same_row id rows); [done..|]. congruence.
Qed.

(** A query after the write, when the written object answers the test of
    the query as the row it replaces. *)
Lemma update_row_find (rows : list Patient) (patient' : Patient) (f : Patient -> bool) :
  (forall p, p ∈ rows -> id p = id patient' -> f patient' = f p) ->
  find f (update_row patient' rows) =
  (fun p => if Z.eqb (id p) (id patient') then patient' else p) <$> find f rows.
Proof.
  unfold update_row. induction rows as [|p l IH]; [done|]. intros Hsame. cbn.
  assert (f (if (id p =? id patient')%Z then patient' else p) = f p) as ->.
  { destruct (Z.eqb_spec (id p) (id patient')) as [Heq|]; [|done].
    apply Hsame; [left | done]. }
  destruct (f p); [done|]. apply IH. intros q Hq. apply Hsame. by right.
Qed.

Lemma update_patient_key (db : Database) (patient : Patient)
    (payload : schemas_rest.PatientUpdate) :
  id (crud.update_patient db patient payload).1 = id patient /\
  user_id (crud.update_patient db patient payload).1 = user_id patient.
Proof. done. Qed.

Lemma update_patient_consistent (db : Database) (patient : Patient)
    (payload : schemas_rest.PatientUpdate) :
  consistent db -> patient ∈ patients db ->
  consistent (crud.update_patient db patient payload).2.
Proof.
  intros Hc Hin. pose proof (patient_ids_unique db Hc) as Hnd.
  destruct Hc. split; cbn [crud.update_patient snd users patients]; try done.
  - unfold update_row. apply Forall_fmap. eapply Forall_impl; [done|].
    intros p Hp. cbn. destruct (Z.eqb_spec (id p) (id patient)) as [Heq|]; [|done].
    cbn. by rewrite <- Heq.
  - by rewrite update_row_id.
  - by rewrite (update_row_user_id (patients db) patient).
Qed.

Lemma delete_row_sorted {K : Type} (R : relation K) (key : Patient -> K)
    (rows : list Patient) (patient : Patient) :
  StronglySorted R (key <$> rows) -> StronglySorted R (key <$> delete_row patient rows).
Proof.
  unfold delete_row. induction rows as [|p l IH]; [done|].
  rewrite fmap_cons. intros [Hall Hs]%StronglySorted_cons. rewrite filter_cons.
  case_decide; [|by apply IH]. rewrite fmap_cons.
  apply StronglySorted_cons. split; [|by apply IH].
  rewrite Forall_forall in *. intros k (q & -> & Hq%list_elem_of_filter)%list_elem_of_fmap.
  apply Hall. apply list_elem_of_fmap_2. by destruct Hq.
Qed.

Lemma delete_row_NoDup {K : Type} (key : Patient -> K) (rows : list Patient)
    (patient : Patient) :
  NoDup (key <$> rows) -> NoDup (key <$> delete_row patient rows).
Proof.
  intros Hnd. eapply sublist_NoDup; first [exact Hnd | apply fmap_sublist, sublist_filter].
Qed.


Lemma delete_patient_consistent (db : Database) (patient : Patient) :
  consistent db -> consistent (crud.delete_patient db patient).
Proof.
  intros []. split; cbn; try done.
  - unfold delete_row. rewrite Forall_forall in *.
    intros p [_ Hp]%list_elem_of_filter. auto.
  - by apply delete_row_sorted.
  - by apply delete_row_NoDup.
Qed.

Abbreviation profile_exists := {|
  status_code := 409;
  detail := "Patient profile already exists for this user";
  headers := [];
|}.





Lemma update_row_same (rows : list Patient) (patient : Patient) :
  NoDup (id <$> rows) -> patient ∈ rows -> update_row patient rows = rows.
Proof.
  intros Hnd Hin. unfold update_row. rewrite <- (list_fmap_id rows) at 2.
  apply list_fmap_ext. intros i p Hp%list_elem_of_lookup_2. cbn.
  destruct (Z.eqb_spec (id p) (id patient)) as [Hk|]; [|done].
  by apply (same_key_same_row id rows).
Qed.

Lemma update_row_twice (rows : list Patient) (patient : Patient) :
  update_row patient (update_row patient rows) = update_row patient rows.
Proof.
  unfold update_row. rewrite <- list_fmap_compose. apply list_fmap_ext.
  intros i p _. cbn. destruct (Z.eqb_spec (id p) (id patient)) as [Hk|Hk].
  - by rewrite Z.eqb_refl.
  - by rewrite (proj2 (Z.eqb_neq _ _)).
Qed.

Lemma provided_twice {A} (value column : option A) :
  crud.provided value (crud.provided value column) = crud.provided value column.
Proof. by destruct value. Qed.

(** X6. [update_patient] changes nothing it is not given: with a payload of
    no fields, a profile loaded from a table with unique keys and the
    table come back as they are; and the same payload applied a second
    time, to its own result, changes nothing. *)
Theorem update_patient_fixed_points (db : Database) (patient : Patient)
    (payload : schemas_rest.PatientUpdate) :
  consistent db ->
  patient ∈ patients db ->
  crud.update_patient db patient
    (schemas_rest.Build_PatientUpdate None None None None None None None)
  = (patient, db) /\
  (let (patient', db') := crud.update_patient db patient payload in
   crud.update_patient db' patient' payload = (patient', db')).
Proof.
  intros Hc Hin. pose proof (patient_ids_unique db Hc) as Hnd. split.
  - unfold crud.update_patient. cbn [crud.provided schemas_rest.pu_name
      schemas_rest.pu_age schemas_rest.pu_gender schemas_rest.pu_contact_number
      schemas_rest.pu_email schemas_rest.pu_address schemas_rest.pu_dob].
    assert ({| id := id patient; user_id := user_id patient; name := name patient;
               age := age patient; dob := dob patient; gender := gender patient;
               contact_number := contact_number patient; email := email patient;
               address := address patient |} = patient) as -> by by destruct patient.
    rewrite update_row_same by done. by destruct db.
  - unfold crud.update_patient. cbn [id user_id name age dob gender contact_number
      email address users patients].
    rewrite !provided_twice. by rewrite update_row_twice.
Qed.

(** X6 at the profile of the first user. *)
Lemma update_patient_fixed_points_witness :
  crud.update_patient sample.two_patients sample.bob_patient
    (schemas_rest.Build_PatientUpdate None None None None None None None)
  = (sample.bob_patient, sample.two_patients).
Proof.
  exact (proj1 (update_patient_fixed_points sample.two_patients sample.bob_patient
                  sample.new_address two_patients_consistent
                  ltac:(vm_compute; left))).
Defined.

Abbreviation no_profile := {|
  status_code := 409;
  detail := "Patient profile not created yet for this user";
  headers := [];
|}.



(** X8. [list_patients] pages the table.  For an offset and a limit that
    are not negative and that SQLite takes as integers, the page is the
    rows of the table from position [skip] on, at most [limit] of them,
    in the order of the table: its row [i] is row [skip + i] of the table
    for [i] below [limit], and it has no row from [limit] on.  A page
    followed by the next one is the page of both limits.  An offset or a
    limit beyond 64 bits raises [OverflowError]. *)
Theorem list_patients_pages (db : Database) (skip limit limit' : Z) :
  (0 <= skip)%Z -> (0 <= limit)%Z -> (0 <= limit')%Z ->
  (skip + limit < 2 ^ 63)%Z -> (limit + limit' < 2 ^ 63)%Z ->
  exists page page',
    crud.list_patients db skip limit = Ok page /\
    crud.list_patients db (skip + limit) limit' = Ok page' /\
    (forall i : nat,
       page !! i =
       if (Z.of_nat i <? limit)%Z then patients db !! (Z.to_nat skip + i)%nat else None) /\
    crud.list_patients db skip (limit + limit') = Ok (page ++ page') /\
    (forall n, (2 ^ 63 <= n)%Z ->
       crud.list_patients db n limit = OverflowError /\
       crud.list_patients db skip n = OverflowError).
Proof.
  intros Hs Hl Hl' Hsl Hll. unfold crud.list_patients, sqlite_integer.
  assert (forall n, (0 <= n < 2 ^ 63)%Z -> (- 2 ^ 63 <=? n)%Z && (n <? 2 ^ 63)%Z = true)
    as Hin by (intros n Hn; apply andb_true_iff; split; lia).
  assert (forall n, (2 ^ 63 <= n)%Z -> (- 2 ^ 63 <=? n)%Z && (n <? 2 ^ 63)%Z = false)
    as Hout by (intros n Hn; apply andb_false_iff; right; lia).
  rewrite !Hin by lia. cbn [andb].
  rewrite !(proj2 (Z.ltb_ge _ 0)) by lia.
  eexists _, _. split; [done|]. split; [done|]. split; [|split].
  - intros i. destruct (Z.ltb_spec (Z.of_nat i) limit).
    + rewrite lookup_take_lt by lia. by rewrite lookup_drop.
    + apply lookup_take_ge. lia.
  - rewrite !Z2Nat.inj_add by lia. rewrite <- drop_drop. by rewrite take_take_drop.
  - intros n Hn. rewrite (Hout n Hn). cbn [andb]. rewrite ?andb_false_r. done.
Qed.

(** X8 at two pages of one row. *)
Lemma list_patients_pages_witness :
  exists page page',
    crud.list_patients sample.two_patients 0 1 = Ok page /\
    crud.list_patients sample.two_patients 1 1 = Ok page' /\
    crud.list_patients sample.two_patients 0 2 = Ok (page ++ page').
Proof.
  destruct (list_patients_pages sample.two_patients 0 1 1
              ltac:(lia) ltac:(lia) ltac:(lia) eq_refl eq_refl)
    as (page & page' & H1 & H2 & _ & H & _).
  exists page, page'. exact (conj H1 (conj H2 H)).
Defined.

(** X9. [GET /patients/] returns the first hundred profiles: it lists every
    profile exactly when there are at most a hundred. *)
Theorem list_all_patients_truncates (db : Database) :
  routers_patients.list_all_patients db = Ok (take 100 (patients db)) /\
  (routers_patients.list_all_patients db = Ok (patients db) <->
   length (patients db) <= 100).
Proof.
  assert (routers_patients.list_all_patients db = Ok (take 100 (patients db))) as Heq
    by done.
  split; [done|]. rewrite Heq. split.
  - intros [= Ht]. apply (f_equal length) in Ht. rewrite length_take in Ht. lia.
  - intros Hle. by rewrite take_ge.
Qed.


Lemma update_patient_lookup (db : Database) (patient : Patient)
    (payload : schemas_rest.PatientUpdate) :
  consistent db -> patient ∈ patients db ->
  users (crud.update_patient db patient payload).2 = users db /\
  crud.get_patient_by_user_id (crud.update_patient db patient payload).2 (user_id patient)
  = Some (crud.update_patient db patient payload).1.
Proof.
  intros Hc Hin. split; [done|].
  pose proof (patient_ids_unique db Hc) as Hnd.
  destruct (lookup_by_unique_column_aux db Hc) as (_ & Huid).
  unfold crud.get_patient_by_user_id in *. cbn [crud.update_patient snd fst patients].
  rewrite update_row_find.
  - rewrite (proj2 (Huid (user_id patient) patient)) by done. cbn.
    by rewrite Z.eqb_refl.
  - intros p Hp Hk. cbn. f_equal. f_equal. symmetry.
    by apply (same_key_same_row id (patients db)).
Qed.

Lemma delete_patient_lookup (db : Database) (patient : Patient) :
  consistent db -> patient ∈ patients db ->
  crud.get_patient_by_user_id (crud.delete_patient db patient) (user_id patient) = None.
Proof.
  intros Hc Hin. apply find_None, Forall_forall.
  intros p [Hk Hp]%list_elem_of_filter.
  apply Z.eqb_neq. intros Hu. apply Hk. f_equal.
  apply (same_key_same_row user_id (patients db)); [by destruct Hc|done..].
Qed.

(** ** Sessions: signup, login and the current user *)

Lemma subject_serialisable (py : Builtins) (user : models.User) :
  jose.dict_serialisable (routers_auth.subject py user) = true.
Proof.
  apply bool_decide_eq_true. unfold routers_auth.subject.
  by apply map_Forall_singleton.
Qed.

Section sessions.
Context (pwd_context : passlib.CryptContext) (jws : jose.JWS) (py : Builtins).
Context (validators : pydantic.Validators) (settings : Settings).

Abbreviation signup := (routers_auth.signup pwd_context validators).
Abbreviation login := (routers_auth.login pwd_context jws py validators settings).
Abbreviation get_current_user := (dependencies.get_current_user jws py settings).
Abbreviation decode_access_token := (security.decode_access_token jws py settings).
Abbreviation signed claims :=
  (jose.sign jws claims (SECRET_KEY settings) (ALGORITHM settings)).
Abbreviation expired :=
  (TokenDecodeError "token expired" (ExpiredSignatureError "Signature has expired.")).

(** The checks of [jwt.decode] on an issued claim set: only the expiry
    can fail. *)
Lemma issued_validate_claims (now now' expire : Z) (d : dict) :
  int_of_int py ->
  jose.dict_serialisable d = true ->
  jose._validate_nbf py d now' = Ok tt ->
  jose._validate_jti d = Ok tt ->
  jose._validate_at_hash d = Ok tt ->
  jose._validate_claims py (issued_claims py settings now expire d)
    (configured (JWT_AUDIENCE settings)) (configured (JWT_ISSUER settings))
    {| jose.verify_aud := truthy (JWT_AUDIENCE settings) |} now' =
  if (timegm expire <? timegm now')%Z
  then Raise (JoseError (ExpiredSignatureError "Signature has expired."))
  else Ok tt.
Proof.
  intros Hint Hser Hnbf Hjti Hath.
  set (p := issued_claims py settings now expire d).
  assert (p !! "nbf" = d !! "nbf") as Hpnbf.
  { subst p. rewrite issued_nbf. destruct (d !! "nbf") as [v|] eqn:Hn; [|done].
    destruct v; try done. apply bool_decide_eq_true in Hser. by apply Hser in Hn. }
  unfold jose._validate_claims.
  assert (jose._validate_iat py p = Ok tt) as ->.
  { unfold jose._validate_iat. subst p. by rewrite issued_iat, Hint. }
  assert (jose._validate_nbf py p now' = Ok tt) as ->.
  { unfold jose._validate_nbf in *. by rewrite Hpnbf. }
  assert (jose._validate_exp py p now' =
          if (timegm expire <? timegm now')%Z
          then Raise (JoseError (ExpiredSignatureError "Signature has expired."))
          else Ok tt) as ->.
  { unfold jose._validate_exp. subst p. by rewrite issued_exp, Hint. }
  cbn. destruct (timegm expire <? timegm now')%Z; [done|]. cbn.
  assert ((if truthy (JWT_AUDIENCE settings)
           then jose._validate_aud p (configured (JWT_AUDIENCE settings))
           else Ok tt) = Ok tt) as ->.
  { unfold truthy, jose._validate_aud. subst p. rewrite issued_aud.
    destruct (configured (JWT_AUDIENCE settings)) as [aud|]; [|done].
    cbn. by rewrite String.eqb_refl. }
  assert (jose._validate_iss p (configured (JWT_ISSUER settings)) = Ok tt) as ->.
  { unfold jose._validate_iss. subst p. rewrite issued_iss.
    destruct (configured (JWT_ISSUER settings)) as [iss|]; [|done].
    cbn. by rewrite String.eqb_refl. }
  assert (jose._validate_sub p = Ok tt) as ->.
  { unfold jose._validate_sub. subst p. rewrite issued_sub. by destruct (d !! "sub"). }
  assert (jose._validate_jti p = Ok tt) as ->.
  { unfold jose._validate_jti in *. subst p. by rewrite issued_other by not_standard. }
  unfold jose._validate_at_hash in *. subst p. by rewrite issued_other by not_standard.
Qed.

(** Decoding an issued token: its payload up to the second of the expiry,
    "token expired" after it. *)
Lemma decode_issued (now now' expire : Z) (d : dict) :
  int_of_int py ->
  jose.sign_verify jws ->
  jose.dict_serialisable d = true ->
  jose._validate_nbf py d now' = Ok tt ->
  jose._validate_jti d = Ok tt ->
  jose._validate_at_hash d = Ok tt ->
  decode_access_token now' (signed (issued_claims py settings now expire d)) =
  if (timegm expire <? timegm now')%Z then Raise expired
  else Ok (issued_claims py settings now expire d).
Proof.
  intros Hint Hsv Hser Hnbf Hjti Hath.
  unfold security.decode_access_token, jose.decode. rewrite Hsv.
  rewrite issued_validate_claims by done.
  by destruct (timegm expire <? timegm now')%Z.
Qed.

Lemma decode_session (now now' expire : Z) (user : models.User) :
  int_of_int py ->
  jose.sign_verify jws ->
  decode_access_token now'
    (signed (issued_claims py settings now expire (routers_auth.subject py user))) =
  if (timegm expire <? timegm now')%Z then Raise expired
  else Ok (issued_claims py settings now expire (routers_auth.subject py user)).
Proof.
  intros Hint Hsv. apply decode_issued; done || apply subject_serialisable.
Qed.

(** The run of [login] once the credentials are accepted. *)
Lemma login_run (now : Z) (username password : string) (db : Database) (h : heap)
    (credentials : schemas.LoginSchema) (user : models.User) (expire : Z) :
  schemas_rest.new_LoginSchema validators username password = Ok credentials ->
  auth_backend.authenticate pwd_context (users db) credentials None = Ok (Some user) ->
  expiry settings now None = Ok expire ->
  let data := fresh (dom h) in
  let h1 := <[data := routers_auth.subject py user]> h in
  let p := issued_claims py settings now expire (routers_auth.subject py user) in
  login now username password db h =
  (Return {| schemas_rest.access_token := signed p;
             schemas_rest.token_type := "bearer" |},
   <[fresh (dom h1) := p]> h1).
Proof.
  intros Hcred Hauth Hexp. cbv zeta. unfold routers_auth.login.
  rewrite Hcred, Hauth, run_bind, run_alloc.
  rewrite (create_access_token_run jws py settings now (fresh (dom h)) None
             (routers_auth.subject py user) expire) by (done || apply lookup_insert_eq).
  cbv zeta. rewrite issued_serialisable by apply subject_serialisable. done.
Qed.

(** The subject of a session, read back by [get_current_user]. *)
Lemma get_current_user_session (now now' expire : Z) (user : models.User) (db : Database) :
  int_of_int py ->
  jose.sign_verify jws ->
  py_str py (PStr (py_str py (PInt (models.id user)))) = py_str py (PInt (models.id user)) ->
  py_int py (PStr (py_str py (PInt (models.id user)))) = Some (models.id user) ->
  get_current_user now'
    (signed (issued_claims py settings now expire (routers_auth.subject py user))) db =
  if (timegm expire <? timegm now')%Z
  then RaiseHTTP (dependencies.InvalidTokenError "token expired")
  else match crud_user_rest.get_user_by_id db (models.id user) with
       | Some u => Return u
       | None =>
           if sqlite_integer (models.id user)
           then RaiseHTTP (dependencies.InvalidTokenError "User not found")
           else of_result OverflowError
       end.
Proof.
  intros Hint Hsv Hstr Hid. unfold dependencies.get_current_user.
  rewrite decode_session by done.
  destruct (timegm expire <? timegm now')%Z; [done|].
  rewrite issued_sub. unfold routers_auth.subject. rewrite lookup_singleton_eq. cbn.
  by rewrite !Hstr, Hid.
Qed.

End sessions.

Lemma insert_user_Ok_inv (db db' : Database) (e hp : string) (user : models.User) :
  insert_user db e hp = Ok (user, db') ->
  crud_user.get_user_by_email (users db) e = None /\
  user = {| models.id := next_id (models.id <$> users db); models.email := e;
            models.hashed_password := hp; models.is_active := true |} /\
  db' = {| users := users db ++ [user]; patients := patients db |}.
Proof.
  destruct (crud_user.get_user_by_email (users db) e) eqn:Hg.
  { rewrite insert_user_taken; [done|]. rewrite Hg. eauto. }
  rewrite insert_user_free by done. by intros [= <- <-].
Qed.

Lemma insert_user_lookup (db db' : Database) (e hp : string) (user : models.User) :
  insert_user db e hp = Ok (user, db') ->
  crud_user.get_user_by_email (users db') e = Some user /\
  crud_user_rest.get_user_by_id db' (models.id user) = Some user.
Proof.
  intros (Hg & -> & ->)%insert_user_Ok_inv.
  unfold crud_user.get_user_by_email, crud_user_rest.get_user_by_id in *. cbn. split.
  - rewrite find_app, Hg. cbn. by rewrite String.eqb_refl.
  - rewrite find_app. cbn. rewrite Z.eqb_refl.
    assert (find (fun u => (models.id u =? next_id (models.id <$> users db))%Z) (users db)
            = None) as ->; [|done].
    apply find_None. pose proof (next_id_above (models.id <$> users db)) as Ha.
    rewrite Forall_fmap in Ha. eapply Forall_impl; [exact Ha|]. cbn. intros; lia.
Qed.

Abbreviation email_registered := {|
  status_code := 400;
  detail := "Email already registered";
  headers := [];
|}.

Abbreviation invalid_credentials := {|
  status_code := 401;
  detail := "Invalid credentials";
  headers := [];
|}.

Section session_properties.
Context (pwd_context : passlib.CryptContext) (jws : jose.JWS) (py : Builtins).
Context (validators : pydantic.Validators) (settings : Settings).

Abbreviation signup := (routers_auth.signup pwd_context validators).
Abbreviation login := (routers_auth.login pwd_context jws py validators settings).
Abbreviation get_current_user := (dependencies.get_current_user jws py settings).
Abbreviation decode_access_token := (security.decode_access_token jws py settings).
Abbreviation create_access_token := (security.create_access_token jws py settings).
Abbreviation authenticate := (auth_backend.authenticate pwd_context).
Abbreviation signed claims :=
  (jose.sign jws claims (SECRET_KEY settings) (ALGORITHM settings)).

Lemma signup_Return_inv (r : passlib.salt pwd_context) (user_in : schemas_rest.UserCreate)
    (db db' : Database) (user : models.User) :
  signup r user_in db = Return (user, db') ->
  exists hp e,
    security.hash_password pwd_context r (schemas_rest.password user_in) = Ok hp /\
    pydantic.EmailStr validators (schemas_rest.email user_in) = Some e /\
    insert_user db e hp = Ok (user, db').
Proof.
  unfold routers_auth.signup. destruct (find _ _); [done|].
  destruct (security.hash_password _ _ _) as [hp|]; [|done]. cbn.
  unfold schemas_rest.new_UserCreate.
  destruct (pydantic.EmailStr _ _) as [e|]; [|done]. cbn.
  unfold crud_user_rest.create_user. cbn.
  destruct (insert_user db e hp) as [[u d]|] eqn:Hi; [|done]. cbn.
  intros [= <- <-]. eauto.
Qed.

(** X11. [signup] guards the unique email itself.  For a validated address
    (one the validator leaves as it is): when a user has it the answer is
    400 and nothing is hashed or stored; otherwise the password is
    hashed, an error of the hashing leaves the function as it is, and with
    a hash the user is stored with that hash, active, under a new key,
    the constraints of the tables kept.  [IntegrityError] is never
    raised. *)
Theorem signup_outcomes (r : passlib.salt pwd_context)
    (user_in : schemas_rest.UserCreate) (db : Database) :
  pydantic.EmailStr validators (schemas_rest.email user_in)
    = Some (schemas_rest.email user_in) ->
  (is_Some (crud_user.get_user_by_email (users db) (schemas_rest.email user_in)) ->
   signup r user_in db = RaiseHTTP email_registered) /\
  (crud_user.get_user_by_email (users db) (schemas_rest.email user_in) = None ->
   match security.hash_password pwd_context r (schemas_rest.password user_in) with
   | Ok hp =>
       exists user db',
         signup r user_in db = Return (user, db') /\
         models.email user = schemas_rest.email user_in /\
         models.hashed_password user = hp /\
         models.is_active user = true /\
         Forall (fun u => models.id u < models.id user)%Z (users db) /\
         users db' = users db ++ [user] /\
         patients db' = patients db /\
         (consistent db -> consistent db')
   | Raise e => signup r user_in db = RaiseError e
   end).
Proof.
  intros Hemail. unfold routers_auth.signup, crud_user.get_user_by_email. split.
  { by intros [u ->]. }
  intros Hn. rewrite Hn.
  destruct (security.hash_password _ _ _) as [hp|e]; [|done]. cbn.
  unfold schemas_rest.new_UserCreate. rewrite Hemail. cbn.
  unfold crud_user_rest.create_user. cbn. rewrite insert_user_free by done.
  eexists _, _. split; [done|]. do 3 (split; [done|]). split; [|split; [done|split; [done|]]].
  - cbn. pose proof (next_id_above (models.id <$> users db)) as Ha.
    by rewrite Forall_fmap in Ha.
  - intros Hc. eapply insert_user_consistent; [done | by apply insert_user_free].
Qed.

Lemma authenticate_found (rows : list models.User) (credentials : schemas.LoginSchema)
    (user : models.User) :
  crud_user.get_user_by_email rows (schemas.email credentials) = Some user ->
  authenticate rows credentials None =
  match passlib.verify pwd_context (schemas.password credentials)
          (models.hashed_password user) with
  | Ok true =>
      match passlib.needs_update pwd_context (models.hashed_password user) with
      | Ok _ => Ok (Some user)
      | Raise e => Raise e
      end
  | _ => Ok None
  end.
Proof.
  intros Hg. unfold auth_backend.authenticate. cbn. rewrite Hg.
  unfold security.verify_password.
  destruct (passlib.verify _ _ _) as [[]|]; cbn; [|done..].
  by destruct (passlib.needs_update _ _).
Qed.

Lemma authenticate_Some_elem (rows : list models.User) (credentials : schemas.LoginSchema)
    (user : models.User) :
  authenticate rows credentials None = Ok (Some user) -> user ∈ rows.
Proof.
  unfold auth_backend.authenticate. cbn.
  destruct (crud_user.get_user_by_email _ _) as [u|] eqn:Hg; [|done].
  apply find_Some_elem in Hg as [Hin _].
  destruct (security.verify_password _ _ _ _) as [[[] ?]|]; cbn; [|done..].
  by intros [= <-].
Qed.

Lemma login_frame (h : heap) (d p : dict) (l : loc) :
  is_Some (h !! l) ->
  (<[fresh (dom (<[fresh (dom h) := d]> h)) := p]> (<[fresh (dom h) := d]> h)) !! l
  = h !! l.
Proof.
  intros Hl. rewrite !lookup_insert_ne; [done|..].
  - intros Heq. apply (is_fresh (dom h)). rewrite Heq. by apply elem_of_dom.
  - intros Heq. apply (is_fresh (dom (<[fresh (dom h) := d]> h))). rewrite Heq.
    apply elem_of_dom. rewrite lookup_insert_ne; [done|].
    intros Heq'. apply (is_fresh (dom h)). rewrite Heq'. by apply elem_of_dom.
Qed.

(** X12. A login opens a session for its user.  When the credentials are
    accepted and the configured lifetime leads to an expiry within the
    range of [datetime], [login] returns a bearer token, the objects of
    the store are as they were, and [get_current_user] maps the token to
    the same user up to the second of the expiry and answers 401 "token
    expired" after it.  The id of the user is one that [str] and [int]
    carry through unchanged, and the keys of [users] are unique. *)
Theorem login_then_current_user (now now' : Z) (username password : string)
    (db : Database) (h : heap) (credentials : schemas.LoginSchema)
    (user : models.User) (expire : Z) :
  int_of_int py ->
  jose.sign_verify jws ->
  consistent db ->
  py_str py (PStr (py_str py (PInt (models.id user)))) = py_str py (PInt (models.id user)) ->
  py_int py (PStr (py_str py (PInt (models.id user)))) = Some (models.id user) ->
  schemas_rest.new_LoginSchema validators username password = Ok credentials ->
  authenticate (users db) credentials None = Ok (Some user) ->
  expiry settings now None = Ok expire ->
  exists tok h',
    login now username password db h =
      (Return {| schemas_rest.access_token := tok;
                 schemas_rest.token_type := "bearer" |}, h') /\
    (forall l, is_Some (h !! l) -> h' !! l = h !! l) /\
    get_current_user now' tok db =
      if (timegm expire <? timegm now')%Z
      then RaiseHTTP (dependencies.InvalidTokenError "token expired")
      else Return user.
Proof.
  intros Hint Hsv Hc Hstr Hid Hcred Hauth Hexp.
  eexists _, _. split; [by eapply login_run|]. split; [apply login_frame|].
  rewrite get_current_user_session by done.
  destruct (timegm expire <? timegm now')%Z; [done|].
  assert (crud_user_rest.get_user_by_id db (models.id user) = Some user) as ->; [|done].
  unfold crud_user_rest.get_user_by_id.
  apply (find_unique models.id _ (models.id user) (users db) user
           (fun y => Z.eqb_eq _ _) (user_ids_unique db Hc)).
  split; [|done]. by eapply authenticate_Some_elem.
Qed.

(** X13. A user who has signed up can log in.  With a password context whose
    fresh hashes verify and are current, after [signup] has stored the
    user, [login] with the same address and password returns a bearer
    token, and [get_current_user] maps it to the stored user until it
    expires. *)
Theorem signup_then_login (r : passlib.salt pwd_context)
    (user_in : schemas_rest.UserCreate) (db db' : Database) (user : models.User)
    (now now' : Z) (h : heap) (expire : Z) :
  passlib.fresh_hash_verifies pwd_context ->
  passlib.fresh_hash_current pwd_context ->
  int_of_int py ->
  jose.sign_verify jws ->
  py_str py (PStr (py_str py (PInt (models.id user)))) = py_str py (PInt (models.id user)) ->
  py_int py (PStr (py_str py (PInt (models.id user)))) = Some (models.id user) ->
  signup r user_in db = Return (user, db') ->
  expiry settings now None = Ok expire ->
  (timegm now' <= timegm expire)%Z ->
  exists tok h',
    login now (schemas_rest.email user_in) (schemas_rest.password user_in) db' h =
      (Return {| schemas_rest.access_token := tok;
                 schemas_rest.token_type := "bearer" |}, h') /\
    get_current_user now' tok db' = Return user.
Proof.
  intros Hfv Hfc Hint Hsv Hstr Hid (hp & e & Hhash & Hemail & Hins)%signup_Return_inv
    Hexp Hnow.
  pose proof (insert_user_lookup _ _ _ _ _ Hins) as [Hbyemail Hbyid].
  apply insert_user_Ok_inv in Hins as (_ & Huser & _).
  assert (models.hashed_password user = hp) as Hhp by by rewrite Huser.
  eexists _, _. split.
  - apply (login_run pwd_context jws py validators settings now _ _ db' h
             {| schemas.email := e; schemas.password := schemas_rest.password user_in |}
             user expire); [|  |done].
    + unfold schemas_rest.new_LoginSchema. by rewrite Hemail.
    + rewrite (authenticate_found _ _ user) by done. cbn. rewrite Hhp.
      by rewrite (Hfv _ _ _ Hhash), (Hfc _ _ _ Hhash).
  - rewrite get_current_user_session by done.
    rewrite (proj2 (Z.ltb_ge _ _)) by done. by rewrite Hbyid.
Qed.

(** X14. [login] refuses alike.  For a username the validator takes for an
    address, the answer is 401 "Invalid credentials" with the store
    untouched exactly when no user has the address or the password
    context does not report the password valid against the stored hash
    (it reports it wrong, or fails on the password or the stored value);
    the two cases cannot be told apart.  A username that is no address
    raises pydantic's [ValidationError], which is not a 401. *)
Theorem login_rejections (now : Z) (username password : string) (db : Database)
    (h : heap) :
  (forall e, pydantic.EmailStr validators username = Some e ->
     login now username password db h = (RaiseHTTP invalid_credentials, h) <->
     match crud_user.get_user_by_email (users db) e with
     | None => True
     | Some user =>
         passlib.verify pwd_context password (models.hashed_password user) ≠ Ok true
     end) /\
  (pydantic.EmailStr validators username = None ->
   login now username password db h =
   (RaiseError (Exception "ValidationError" "email"), h)).
Proof.
  unfold routers_auth.login, schemas_rest.new_LoginSchema. split.
  - intros e ->.
    destruct (crud_user.get_user_by_email (users db) e) as [user|] eqn:Hg.
    + rewrite (authenticate_found _ _ user) by done. cbn [schemas.password].
      destruct (passlib.verify _ _ _) as [[]|err] eqn:Hv.
      * split; [|done].
        destruct (passlib.needs_update _ _); [|done].
        by destruct (run _ h) as [[]].
      * done.
      * done.
    + unfold auth_backend.authenticate. cbn. by rewrite Hg.
  - by intros ->.
Qed.

End session_properties.

Section token_properties.
Context (jws : jose.JWS) (py : Builtins) (settings : Settings).

Abbreviation get_current_user := (dependencies.get_current_user jws py settings).
Abbreviation decode_access_token := (security.decode_access_token jws py settings).
Abbreviation create_access_token := (security.create_access_token jws py settings).
Abbreviation signed claims :=
  (jose.sign jws claims (SECRET_KEY settings) (ALGORITHM settings)).
Abbreviation int_error :=
  (Exception "ValueError" "invalid literal for int()").


(** X15. What a payload that [decode_access_token] returns has passed: it is
    the claim set of a token that verifies under the configured key and
    algorithm; with an issuer configured its ["iss"] is that issuer (a
    token without the claim is refused, unlike one without ["aud"]); a
    ["sub"] is a string; an ["exp"] is a value that [int] reads as a
    number not before the current second, and an ["nbf"] one that [int]
    reads as a number not after it (an integer, or a string or boolean
    that [int] converts); and there is no ["at_hash"]. *)
Theorem decoded_payload_guarantees (now : Z) (tok : jose.token jws) (payload : dict) :
  decode_access_token now tok = Ok payload ->
  jose.verify jws tok (SECRET_KEY settings) [ALGORITHM settings] = Some payload /\
  (forall iss, configured (JWT_ISSUER settings) = Some iss ->
     payload !! "iss" = Some (PStr iss)) /\
  (forall v, payload !! "sub" = Some v -> exists s, v = PStr s) /\
  (forall v, payload !! "exp" = Some v ->
     exists exp, py_int py v = Some exp /\ (timegm now <= exp)%Z) /\
  (forall v, payload !! "nbf" = Some v ->
     exists nbf, py_int py v = Some nbf /\ (nbf <= timegm now)%Z) /\
  payload !! "at_hash" = None.
Proof.
  intros [Hv Hc]%decode_access_token_Ok_inv. split; [done|].
  unfold jose._validate_claims in Hc.
  apply bind_Ok_inv in Hc as (_ & _ & Hc).
  apply bind_Ok_inv in Hc as ([] & Hnbf & Hc).
  apply bind_Ok_inv in Hc as ([] & Hexp & Hc).
  apply bind_Ok_inv in Hc as (_ & _ & Hc).
  apply bind_Ok_inv in Hc as ([] & Hiss & Hc).
  apply bind_Ok_inv in Hc as ([] & Hsub & Hc).
  apply bind_Ok_inv in Hc as (_ & _ & Hath).
  split; [|split; [|split; [|split]]].
  - intros iss Hi. unfold jose._validate_iss in Hiss. rewrite Hi in Hiss.
    destruct (payload !! "iss") as [v|]; [|done].
    destruct v as [| | |s| |]; try done. cbn in Hiss.
    destruct (String.eqb_spec iss s); [by subst | done].
  - intros v Hs. unfold jose._validate_sub in Hsub. rewrite Hs in Hsub.
    destruct v; try done. eauto.
  - intros v He. unfold jose._validate_exp in Hexp. rewrite He in Hexp.
    destruct (py_int py v) as [exp|];
      [|unfold jose.not_an_integer in Hexp; by case_match].
    exists exp. split; [done|].
    destruct (Z.ltb_spec exp (timegm now)); [done | lia].
  - intros v Hn. unfold jose._validate_nbf in Hnbf. rewrite Hn in Hnbf.
    destruct (py_int py v) as [nbf|];
      [|unfold jose.not_an_integer in Hnbf; by case_match].
    exists nbf. split; [done|].
    destruct (Z.ltb_spec (timegm now) nbf); [done | lia].
  - unfold jose._validate_at_hash in Hath. by destruct (payload !! "at_hash").
Qed.


(** X17. A token with a ["sub"] that is no numeral is not answered with 401.
    For a claims dict whose subject [int] does not read, the token that
    [create_access_token] issues decodes, and [get_current_user] raises
    the [ValueError] of [int] for it instead of an [HTTPException]. *)
Theorem get_current_user_non_numeric_subject (now now' : Z) (data : loc)
    (expires_delta : option Z) (h : heap) (d : dict) (v : pyval) (expire : Z)
    (db : Database) :
  int_of_int py ->
  jose.sign_verify jws ->
  h !! data = Some d ->
  jose.dict_serialisable d = true ->
  jose._validate_nbf py d now' = Ok tt ->
  jose._validate_jti d = Ok tt ->
  jose._validate_at_hash d = Ok tt ->
  expiry settings now expires_delta = Ok expire ->
  (timegm now' <= timegm expire)%Z ->
  d !! "sub" = Some v ->
  py_int py (PStr (py_str py (PStr (py_str py v)))) = None ->
  exists tok,
    (run (create_access_token now data expires_delta) h).1 = Ok tok /\
    get_current_user now' tok db = RaiseError int_error.
Proof.
  intros Hint Hsv Hd Hser Hnbf Hjti Hath Hexp Hnow Hsub Hnone.
  exists (signed (issued_claims py settings now expire d)). split.
  - rewrite (create_access_token_run jws py settings now data expires_delta d expire h)
      by done.
    cbn. by rewrite issued_serialisable.
  - unfold dependencies.get_current_user.
    rewrite decode_issued by done. rewrite (proj2 (Z.ltb_ge _ _)) by done.
    rewrite issued_sub, Hsub. cbn. by rewrite Hnone.
Qed.

Lemma create_access_token_run_overflow (now : Z) (data : loc)
    (expires_delta : option Z) (d : dict) (e : exn) (h : heap) :
  h !! data = Some d ->
  expiry settings now expires_delta = Raise e ->
  (run (create_access_token now data expires_delta) h).1 = Raise e.
Proof.
  intros Hd Hexp. unfold security.create_access_token.
  rewrite run_bind. unfold dict_copy at 1.
  rewrite run_bind, (run_deref data d), run_alloc by done. set (l := fresh (dom h)).
  rewrite run_bind, (run_dict_contains l "sub" d) by apply lookup_insert_eq.
  rewrite run_bind.
  assert (run (if bool_decide (is_Some (d !! "sub"))
               then sub ← dict_getitem l "sub";
                    dict_setitem l "sub" (PStr (py_str py sub))
               else mret tt) (<[l := d]> h)
          = (Ok tt, <[l := coerce_sub py d]> h)) as ->.
  { unfold coerce_sub. destruct (d !! "sub") as [v|] eqn:Hsub.
    - rewrite bool_decide_true by eauto.
      rewrite run_bind, (run_dict_getitem l "sub" d v) by (done || apply lookup_insert_eq).
      apply run_dict_setitem.
    - rewrite bool_decide_false by (intros [? ?]; done). done. }
  unfold expiry, lifetime in Hexp. rewrite run_bind, run_lift.
  destruct (match expires_delta with
            | Some d0 => Ok d0
            | None => timedelta_minutes (ACCESS_TOKEN_EXPIRE_MINUTES settings)
            end) as [delta|e'] eqn:Hdelta.
  - cbn in Hexp. rewrite run_bind, run_lift, Hexp. done.
  - cbn in Hexp. by injection Hexp as ->.
Qed.

Lemma expiry_overflow (now : Z) (expires_delta : option Z) (e : exn) :
  expiry settings now expires_delta = Raise e ->
  exists msg, e = Exception "OverflowError" msg.
Proof.
  unfold expiry, lifetime, timedelta_minutes, datetime_add, overflow.
  destruct expires_delta as [delta|]; cbn.
  - case_bool_decide; [done|]. intros [= <-]. eauto.
  - case_bool_decide; cbn; [|intros [= <-]; eauto].
    case_bool_decide; [done|]. intros [= <-]. eauto.
Qed.

(** X18. A lifetime that leads out of the range of [datetime].  Let
    [expires_delta] be [None] or a [timedelta].  When the lifetime in
    force gives no expiry, because the configured minutes are no
    [timedelta] or because the instant of issue plus the lifetime is no
    [datetime], [create_access_token] raises the [OverflowError] of that
    step and returns no token; the claims do not reach [jwt.encode]. *)
Theorem create_access_token_lifetime_out_of_range (now : Z) (data : loc)
    (expires_delta : option Z) (h : heap) (d : dict) (e : exn) :
  h !! data = Some d ->
  (forall delta, expires_delta = Some delta ->
     (timedelta_min <= delta <= timedelta_max)%Z) ->
  expiry settings now expires_delta = Raise e ->
  (run (create_access_token now data expires_delta) h).1 = Raise e /\
  (exists msg, e = Exception "OverflowError" msg) /\
  (match expires_delta with
   | Some delta => ~ (datetime_min <= now + delta <= datetime_max)%Z
   | None =>
       let delta := (ACCESS_TOKEN_EXPIRE_MINUTES settings * 60 * 1000000)%Z in
       ~ (timedelta_min <= delta <= timedelta_max)%Z \/
       ~ (datetime_min <= now + delta <= datetime_max)%Z
   end).
Proof.
  intros Hd _ He. split; [|split].
  - by apply (create_access_token_run_overflow now data expires_delta d).
  - by eapply expiry_overflow.
  - unfold expiry, lifetime, timedelta_minutes, datetime_add in He.
    destruct expires_delta as [delta|]; cbn in He.
    + by case_bool_decide.
    + cbv zeta. case_bool_decide; cbn in He; [|by left].
      right. by case_bool_decide.
Qed.

End token_properties.

(** ** The requests *)

Section requests.
Context (pwd_context : passlib.CryptContext) (jws : jose.JWS) (py : Builtins).
Context (validators : pydantic.Validators) (settings : Settings).

Abbreviation get_current_user := (dependencies.get_current_user jws py settings).
Abbreviation current_patient := (routers_patients.current_patient jws py settings).
Abbreviation post_patient := (routers_patients.post_patient jws py settings).
Abbreviation get_me := (routers_patients.get_me jws py settings).
Abbreviation patch_me := (routers_patients.patch_me jws py settings).
Abbreviation delete_me := (routers_patients.delete_me jws py settings).
Abbreviation serves := (main.serves pwd_context jws py validators settings).

Lemma Return_inj {A} (a b : A) : Return a = Return b -> a = b.
Proof. by intros [= ->]. Qed.

Lemma outcome_bind_Return_inv {A B} (o : outcome A) (f : A -> outcome B) (b : B) :
  o ≫= f = Return b -> exists a, o = Return a /\ f a = Return b.
Proof. destruct o as [a| |]; cbn; [eauto|done..]. Qed.

(** The user of a token is read from the [users] table only. *)
Lemma get_current_user_users (now : Z) (tok : jose.token jws) (db db' : Database) :
  users db' = users db -> get_current_user now tok db' = get_current_user now tok db.
Proof.
  intros Hu. unfold dependencies.get_current_user, crud_user_rest.get_user_by_id.
  by rewrite Hu.
Qed.

Lemma current_patient_Return_inv (now : Z) (tok : jose.token jws) (db : Database)
    (patient : Patient) :
  current_patient now tok db = Return patient ->
  exists user,
    get_current_user now tok db = Return user /\
    crud.get_patient_by_user_id db (models.id user) = Some patient /\
    patient ∈ patients db.
Proof.
  unfold routers_patients.current_patient.
  intros (user & Hu & Hp)%outcome_bind_Return_inv. exists user. split; [done|].
  unfold dependencies.get_current_patient_or_409 in Hp.
  destruct (crud.get_patient_by_user_id db (models.id user)) as [p|] eqn:Hg; [|done].
  injection Hp as ->. split; [done|]. by apply find_Some_elem in Hg as [? _].
Qed.

Lemma serves_consistent (db db' : Database) :
  consistent db -> serves db db' -> consistent db'.
Proof.
  intros Hc Hs.
  destruct Hs as [r user_in db user db' H|now tok payload db patient db' H
                 |now tok payload db patient db' H|now tok db db' H].
  - apply signup_Return_inv in H as (hp & e & _ & _ & Hins).
    by eapply insert_user_consistent.
  - unfold routers_patients.post_patient in H.
    apply outcome_bind_Return_inv in H as (user & _ & H).
    unfold routers_patients.create_patient_profile in H.
    destruct (crud.get_patient_by_user_id _ _); [done|].
    unfold crud.create_patient_profile in H.
    destruct (insert_patient _ _) as [[p d]|] eqn:Hins; [|done].
    injection H as -> ->. by eapply insert_patient_consistent.
  - unfold routers_patients.patch_me in H.
    apply outcome_bind_Return_inv in H as (p & (u & _ & _ & Hin)%current_patient_Return_inv & H).
    injection H as <- <-. by apply update_patient_consistent.
  - unfold routers_patients.delete_me in H.
    apply outcome_bind_Return_inv in H as (p & _ & H).
    injection H as <-. by apply delete_patient_consistent.
Qed.

(** X19. The constraints of the tables are an invariant of the application:
    whatever sequence of signups and of creations, updates and deletions
    of profiles it serves, unique keys, unique emails of users and at
    most one profile for a user hold after it when they held before; so
    they hold of every database that started empty. *)
Theorem requests_preserve_constraints (db db' : Database) :
  consistent db -> rtc serves db db' -> consistent db'.
Proof.
  intros Hc Hsteps. induction Hsteps as [|db1 db2 db3 Hstep _ IH]; [done|].
  apply IH. by eapply serves_consistent.
Qed.

(** X20. A profile is read back as it was written.  With a token that
    [get_current_user] maps to a user at both requests: the profile that
    [POST /patients/] stores, and the one that [PATCH /patients/me]
    returns, is what [GET /patients/me] then returns; and after
    [DELETE /patients/me] the answer is 409, the user still there. *)
Theorem profile_round_trip (now now' : Z) (tok : jose.token jws) (db : Database)
    (user : models.User) :
  consistent db ->
  get_current_user now tok db = Return user ->
  get_current_user now' tok db = Return user ->
  (forall payload patient db',
     post_patient now tok payload db = Return (patient, db') ->
     get_me now' tok db' = Return patient) /\
  (forall payload patient db',
     patch_me now tok payload db = Return (patient, db') ->
     get_me now' tok db' = Return patient) /\
  (forall db',
     delete_me now tok db = Return db' ->
     get_me now' tok db' = RaiseHTTP no_profile /\
     get_current_user now' tok db' = Return user).
Proof.
  intros Hc Hu Hu'.
  unfold routers_patients.get_me, routers_patients.current_patient.
  split; [|split].
  - intros payload patient db'. unfold routers_patients.post_patient. rewrite Hu. cbn.
    unfold routers_patients.create_patient_profile.
    destruct (crud.get_patient_by_user_id db (models.id user)) eqn:Hg; [done|].
    unfold crud.create_patient_profile. rewrite insert_patient_free by done.
    intros [= <- <-]. rewrite (get_current_user_users now' tok db) by done.
    rewrite Hu'. cbn. unfold dependencies.get_current_patient_or_409.
    unfold crud.get_patient_by_user_id in *. cbn. rewrite find_app, Hg. cbn.
    by rewrite Z.eqb_refl.
  - intros payload patient db'. unfold routers_patients.patch_me,
      routers_patients.current_patient. rewrite Hu. cbn.
    unfold dependencies.get_current_patient_or_409.
    destruct (crud.get_patient_by_user_id db (models.id user)) as [p|] eqn:Hg; [|done].
    cbn. unfold routers_patients.update_current_patient_profile. intros Hup.
    apply Return_inj in Hup.
    change (crud.update_patient db p payload = (patient, db')) in Hup.
    pose proof (find_Some_elem _ _ _ Hg) as [Hin Huid%Z.eqb_eq].
    destruct (update_patient_lookup db p payload Hc Hin) as [Hsame Hfound].
    rewrite Hup in Hsame, Hfound. cbn in Hsame, Hfound.
    rewrite (get_current_user_users now' tok db) by done. rewrite Hu'. cbn.
    by rewrite <- Huid, Hfound.
  - intros db'. unfold routers_patients.delete_me, routers_patients.current_patient.
    rewrite Hu. cbn. unfold dependencies.get_current_patient_or_409.
    destruct (crud.get_patient_by_user_id db (models.id user)) as [p|] eqn:Hg; [|done].
    cbn. unfold routers_patients.delete_current_patient_profile. intros [= <-].
    pose proof (find_Some_elem _ _ _ Hg) as [Hin Huid%Z.eqb_eq].
    rewrite (get_current_user_users now' tok db) by done. rewrite Hu'. cbn.
    split; [|done]. rewrite <- Huid.
    pose proof (delete_patient_lookup db p Hc Hin) as Hgone.
    unfold crud.delete_patient, crud.get_patient_by_user_id in Hgone. cbn in Hgone.
    by rewrite Hgone.
Qed.

End requests.

(** ** The active flag *)

Lemma find_fmap {A} (f : A -> bool) (g : A -> A) (l : list A) :
  (forall x, f (g x) = f x) -> find f (g <$> l) = g <$> find f l.
Proof.
  intros Hf. induction l as [|x l IH]; [done|]. cbn. rewrite Hf.
  by destruct (f x).
Qed.

(** X21. No function reads [is_active].  The database backend authenticates a
    user whose flag is off as one whose flag is on, and
    [get_current_user] maps a token to them alike. *)
Theorem is_active_never_read (pwd_context : passlib.CryptContext) (jws : jose.JWS)
    (py : Builtins) (settings : Settings) (active : bool) (db : Database)
    (credentials : schemas.LoginSchema) (now : Z) (tok : jose.token jws) :
  let db' := {| users := with_is_active active <$> users db; patients := patients db |} in
  auth_backend.authenticate pwd_context (users db') credentials None =
    match auth_backend.authenticate pwd_context (users db) credentials None with
    | Ok user => Ok (with_is_active active <$> user)
    | Raise e => Raise e
    end /\
  dependencies.get_current_user jws py settings now tok db' =
    match dependencies.get_current_user jws py settings now tok db with
    | Return user => Return (with_is_active active user)
    | RaiseHTTP e => RaiseHTTP e
    | RaiseError e => RaiseError e
    end.
Proof.
  cbv zeta. cbn [users]. split.
  - unfold auth_backend.authenticate. cbn.
    unfold crud_user.get_user_by_email. rewrite find_fmap by done.
    destruct (find _ _) as [u|]; [|done]. cbn.
    destruct (security.verify_password _ _ _ _) as [[[] ?]|]; done.
  - unfold dependencies.get_current_user, crud_user_rest.get_user_by_id. cbn [users].
    destruct (security.decode_access_token _ _ _ _ _) as [payload|[]]; try done.
    destruct (payload !! "sub") as [[]|]; try done;
      (destruct (py_int py _) as [i|]; [|done]); rewrite find_fmap by done;
      (destruct (find _ _); [done|]); cbn; by destruct (sqlite_integer i).
Qed.

(** ** Concrete runs of the request layer *)

Abbreviation ref_signup := (routers_auth.signup pwd_context sample.validators).
Abbreviation ref_login :=
  (routers_auth.login pwd_context jws sample.builtins sample.validators defaults).
Abbreviation ref_get_current_user :=
  (dependencies.get_current_user jws sample.builtins defaults).
Abbreviation ref_get_me := (routers_patients.get_me jws sample.builtins defaults).
Abbreviation bearer tok :=
  {| schemas_rest.access_token := tok; schemas_rest.token_type := "bearer" |}.

Lemma sample_int_of_int : int_of_int sample.builtins.
Proof. by intros n. Qed.

(** X11 at an address that is taken. *)
Lemma signup_outcomes_witness :
  ref_signup 11%N sample.bob_signup sample.two_users = RaiseHTTP email_registered.
Proof.
  apply (signup_outcomes pwd_context sample.validators 11%N sample.bob_signup
           sample.two_users eq_refl).
  vm_compute. eauto.
Defined.

(** X12 at a login of the first user, the token used a minute later. *)
Lemma login_then_current_user_witness :
  exists tok h',
    ref_login t0 "bob@example.com" "hunter2" sample.two_users ∅ = (Return (bearer tok), h') /\
    ref_get_current_user (t0 + seconds 60) tok sample.two_users = Return sample.bob.
Proof.
  destruct (login_then_current_user pwd_context jws sample.builtins sample.validators
              defaults t0 (t0 + seconds 60) "bob@example.com" "hunter2" sample.two_users ∅
              {| schemas.email := "bob@example.com"; schemas.password := "hunter2" |}
              sample.bob (t0 + seconds 1800)
              sample_int_of_int reference_sign_verify two_users_consistent
              eq_refl eq_refl eq_refl ltac:(vm_compute; reflexivity) eq_refl)
    as (tok & h' & H1 & _ & H2).
  exists tok, h'. exact (conj H1 H2).
Defined.

(** X13 at the first signup, the token used in the second it expires in. *)
Lemma signup_then_login_witness :
  exists tok h',
    ref_login t0 "bob@example.com" "hunter2"
      (sample.signed_up sample.empty_db 7 sample.bob_signup) ∅ = (Return (bearer tok), h') /\
    ref_get_current_user (t0 + seconds 1800) tok
      (sample.signed_up sample.empty_db 7 sample.bob_signup) = Return sample.bob.
Proof.
  apply (signup_then_login pwd_context jws sample.builtins sample.validators defaults
           7%N sample.bob_signup sample.empty_db
           (sample.signed_up sample.empty_db 7 sample.bob_signup) sample.bob
           t0 (t0 + seconds 1800) ∅ (t0 + seconds 1800)
           reference_fresh_hash_verifies reference_fresh_hash_current
           sample_int_of_int reference_sign_verify eq_refl eq_refl
           ltac:(vm_compute; reflexivity) eq_refl).
  vm_compute. discriminate.
Defined.

(** X15 at a token issued under settings with an issuer. *)
Lemma decoded_payload_guarantees_witness :
  security.decode_access_token jws sample.builtins sample.with_issuer t0
    sample.issuer_token = Ok sample.issuer_claims /\
  sample.issuer_claims !! "iss" = Some (PStr "patient-service").
Proof.
  assert (security.decode_access_token jws sample.builtins sample.with_issuer t0
            sample.issuer_token = Ok sample.issuer_claims) as Hd
    by (vm_compute; reflexivity).
  split; [exact Hd|].
  exact (proj1 (proj2 (decoded_payload_guarantees jws sample.builtins sample.with_issuer
                         t0 sample.issuer_token sample.issuer_claims Hd))
           "patient-service" eq_refl).
Defined.

(** X17 at a subject that is a name. *)
Lemma get_current_user_non_numeric_subject_witness :
  exists tok,
    (run (security.create_access_token jws sample.builtins defaults t0 1%positive None)
       (store_of sample.named_subject)).1 = Ok tok /\
    ref_get_current_user t0 tok sample.two_users =
    RaiseError (Exception "ValueError" "invalid literal for int()").
Proof.
  apply (get_current_user_non_numeric_subject jws sample.builtins defaults t0 t0
           1%positive None (store_of sample.named_subject) sample.named_subject
           (PStr "alice") (t0 + seconds 1800) sample.two_users
           sample_int_of_int reference_sign_verify eq_refl eq_refl eq_refl eq_refl
           eq_refl eq_refl); [|reflexivity..].
  vm_compute. discriminate.
Defined.

(** X18 at a lifetime of minus 70 000 000 000 seconds, which leads before
    the year 1. *)
Lemma create_access_token_lifetime_out_of_range_witness :
  (run (security.create_access_token jws sample.builtins defaults t0 1%positive
          (Some (seconds (-70000000000))))
     (store_of login_claims)).1
  = Raise (Exception "OverflowError" "date value out of range").
Proof.
  apply (create_access_token_lifetime_out_of_range jws sample.builtins defaults t0
           1%positive (Some (seconds (-70000000000))) (store_of login_claims)
           login_claims (Exception "OverflowError" "date value out of range") eq_refl).
  - intros delta [= <-]. vm_compute. split; discriminate.
  - vm_compute. reflexivity.
Defined.

(** X19 at the creation of the first profile. *)
Lemma requests_preserve_constraints_witness : consistent sample.one_patient.
Proof.
  apply (requests_preserve_constraints pwd_context jws sample.builtins sample.validators
           defaults sample.two_users sample.one_patient two_users_consistent).
  apply rtc_once.
  apply (main.serves_post_patient pwd_context jws sample.builtins sample.validators
           defaults t0 sample.bob_token sample.bob_profile sample.two_users
           sample.bob_patient sample.one_patient).
  vm_compute. reflexivity.
Defined.

(** X20 at the first profile, read a minute after it was made. *)
Lemma profile_round_trip_witness :
  ref_get_me (t0 + seconds 60) sample.bob_token sample.one_patient
  = Return sample.bob_patient.
Proof.
  apply (proj1 (profile_round_trip jws sample.builtins defaults t0 (t0 + seconds 60)
                  sample.bob_token sample.two_users sample.bob two_users_consistent
                  ltac:(vm_compute; reflexivity) ltac:(vm_compute; reflexivity))
           sample.bob_profile).
  vm_compute. reflexivity.
Defined.

(** The login of [bob] returns [sample.bob_token]. *)
Example login_bob :
  (ref_login t0 "bob@example.com" "hunter2" sample.two_users ∅).1
  = Return (bearer sample.bob_token).
Proof. vm_compute. reflexivity. Qed.

(** A wrong password, an unknown address and a username that is no
    address. *)
Example login_refused :
  (ref_login t0 "bob@example.com" "hunter3" sample.two_users ∅).1
    = RaiseHTTP invalid_credentials /\
  (ref_login t0 "dave@example.com" "hunter2" sample.two_users ∅).1
    = RaiseHTTP invalid_credentials /\
  (ref_login t0 "bob" "hunter2" sample.two_users ∅).1
    = RaiseError (Exception "ValidationError" "email").
Proof. repeat split; vm_compute; reflexivity. Qed.

(** The token of [bob] half an hour and a second after the login, a
    string that is no token, and the token of a user who is not in the
    table. *)
Example current_user_refused :
  ref_get_current_user (t0 + seconds 1801) sample.bob_token sample.two_users
    = RaiseHTTP (dependencies.InvalidTokenError "token expired") /\
  ref_get_current_user t0 (Unsigned "not.a.token") sample.two_users
    = RaiseHTTP (dependencies.InvalidTokenError "invalid token or claims") /\
  ref_get_current_user t0 sample.bob_token sample.empty_db
    = RaiseHTTP (dependencies.InvalidTokenError "User not found").
Proof. repeat split; vm_compute; reflexivity. Qed.

(** The three exceptions that leave [get_current_user]: for a token whose
    ["exp"] is a list, one whose subject is a name, and one whose subject
    is the numeral of 2^63. *)
Example current_user_raises :
  ref_get_current_user t0 list_exp_token sample.two_users
    = RaiseError (jose.int_type_error (PList [PInt 4102444800])) /\
  ref_get_current_user t0
    (Signed {[ "sub" := PStr "alice" ]} (SECRET_KEY defaults) (ALGORITHM defaults))
    sample.two_users
    = RaiseError (Exception "ValueError" "invalid literal for int()") /\
  ref_get_current_user t0 sample.large_subject_token sample.two_users
    = RaiseError integer_overflow.
Proof. repeat split; vm_compute; reflexivity. Qed.
